(** * Echo Chat API: WebSocket framing, dispatch, admin authentication,
      sessions and verification codes

    A shallow embedding of the Python sources

    - [api/ws_workers/ws_worker.py]      (framing loop and dispatch router),
    - [api/ws_workers/admin_worker.py]   (admin challenge/response handler),
    - [api/config/models/auth.py]        (the [CfAuth] configuration object),
    - [api/db/handlers/secure_handler.py] and
      [api/db/handlers/user_handler.py]  (passwords, tokens, codes, login),

    followed by the properties established about them.

    Conventions.  Python dictionaries are finite maps ([gmap]); an
    [async def] is a function from the state it reads to the frames it
    sends, its outcome (normal return or raised exception) and the state it
    leaves; [datetime] values are integers counting seconds and
    [timedelta(seconds=s)] is [s]; every reading of [datetime.now()], every
    draw of randomness and every frame supplied by the peer is an explicit
    argument. *)

From Stdlib Require Import ZArith String List Lia.
From Stdlib Require Strings.Byte.
From Stdlib Require Import Ascii.
From Stdlib Require Sorted.
From stdpp Require Import base option list gmap strings fin_maps.

Set Warnings "-register-all".

Local Open Scope string_scope.
Local Open Scope Z_scope.

(* ===================================================================== *)
(** ** Values exchanged with Python *)
(* ===================================================================== *)

(** The values [json.loads] can produce.  A decoded object is a [dict] with
    string keys.  Numbers are kept integral: every branch of the code below
    treats a number only as "neither a string nor a dict". *)
Inductive json : Type :=
| JNull
| JBool (b : bool)
| JNum (z : Z)
| JStr (s : string)
| JArr (items : list json)
| JObj (fields : gmap string json).

(** Byte strings ([bytes]). *)
Definition bytes : Type := list Byte.byte.

#[global] Instance byte_eq_dec : EqDecision Byte.byte := Stdlib.Strings.Byte.byte_eq_dec.

(** The exceptions that occur in the modelled code. *)
Inductive exn : Type :=
| WebSocketDisconnect
| KeyError
| TypeError
| AttributeError
| IndexError
| JSONDecodeError
| ValidationError
| UserDoesNotExist
| PasswordIncorrectException
| DoesNotExist.

(** Outcome of a Python expression or call: a value or a raised exception. *)
Inductive res (A : Type) : Type :=
| Ok (a : A)
| Raise (e : exn).
Arguments Ok {A} a.
Arguments Raise {A} e.

Definition res_bind {A B} (r : res A) (k : A -> res B) : res B :=
  match r with
  | Ok a => k a
  | Raise e => Raise e
  end.

Notation "'try!' x := r 'in' k" := (res_bind r (fun x => k))
  (at level 10, x name, r at level 100, k at level 200).

(** What a connection emits towards its peer. *)
Inductive outbound : Type :=
| SendJson (j : json)
| SendBytes (b : bytes)
| Close.

(** What the peer can make the next [receive] step observe.  A text frame
    carries either something [json.loads] rejects or the value it decodes
    to. *)
Inductive inbound : Type :=
| InDisconnect
| InBytes (b : bytes)
| InTextGarbled (s : string)
| InTextJson (v : json).

(** [WebSocket.receive_json()] (text mode) of the transport library: a
    disconnect message raises [WebSocketDisconnect]; the payload is read
    with [message["text"]], a [KeyError] for a binary frame; the text goes
    through [json.loads], which raises [JSONDecodeError] (a [ValueError])
    on malformed text and otherwise returns the decoded value, of any JSON
    type. *)
Definition receive_json (f : inbound) : res json :=
  match f with
  | InDisconnect => Raise WebSocketDisconnect
  | InBytes _ => Raise KeyError
  | InTextGarbled _ => Raise JSONDecodeError
  | InTextJson v => Ok v
  end.

(** [WebSocket.receive_bytes()]: as above with [message["bytes"]]. *)
Definition receive_bytes (f : inbound) : res bytes :=
  match f with
  | InDisconnect => Raise WebSocketDisconnect
  | InBytes b => Ok b
  | InTextGarbled _ => Raise KeyError
  | InTextJson _ => Raise KeyError
  end.

(** JSON literals used in replies. *)
Definition obj (kvs : list (string * json)) : json := JObj (list_to_map kvs).

Definition error_reply (msg : string) : json := obj [("error", JStr msg)].

(* ===================================================================== *)
(** ** Framing and dispatch: [ws_worker.py] *)
(* ===================================================================== *)

Module Framing.

(** The two classes passed as [field_type]. *)
Inductive field_type : Type := T_str | T_dict.

Definition isinstance (v : json) (t : field_type) : bool :=
  match t, v with
  | T_str, JStr _ => true
  | T_dict, JObj _ => true
  | _, _ => false
  end.

Definition is_str_eq (field : string) (v : json) : bool :=
  match v with
  | JStr s => bool_decide (s = field)
  | _ => false
  end.

(** [field in data]: key membership for a dict, element membership for a
    list, substring test for a string, [TypeError] for the other values. *)
Definition py_contains (data : json) (field : string) : res bool :=
  match data with
  | JObj m => Ok (bool_decide (is_Some (m !! field)))
  | JArr l => Ok (existsb (is_str_eq field) l)
  | JStr s => Ok (match String.index 0 field s with Some _ => true | None => false end)
  | JNull | JBool _ | JNum _ => Raise TypeError
  end.

(** [data[field]] with a string subscript. *)
Definition py_getitem (data : json) (field : string) : res json :=
  match data with
  | JObj m => match m !! field with Some v => Ok v | None => Raise KeyError end
  | _ => Raise TypeError
  end.

(** [verify_field(data, field, field_type)]. *)
Definition verify_field (data : json) (field : string) (t : field_type) : res bool :=
  try! present := py_contains data field in
  if negb present then Ok false
  else
    try! v := py_getitem data field in
    match v with
    | JNull => Ok false
    | _ => if negb (isinstance v t) then Ok false else Ok true
    end.

(** [content == {}]: only the empty dict equals the empty dict. *)
Definition is_empty_dict (v : json) : bool :=
  match v with
  | JObj m => bool_decide (size m = 0%nat)
  | _ => false
  end.

(** The classes registered in the class attribute [WsWorker.workers]. *)
Inductive worker_class : Type := UsersWorker.

(** [workers: dict[str, Callable[...]] = {"users": UsersWorker}]. *)
Definition workers : gmap string worker_class := {[ "users" := UsersWorker ]}.

(** How one pass through the body of [while True] ends. *)
Inductive step_end : Type :=
| StepContinue
| StepReturn
| StepRaise (e : exn).

(** How [run] ends on a finite supply of frames: it returned after a
    disconnect, an exception escaped it, or it is suspended in
    [receive_json] waiting for the next frame. *)
Inductive loop_end : Type :=
| Returned
| Crashed (e : exn)
| Listening.

Section Worker.

(** The state shared with the handlers. *)
Context {W : Type}.

(** [subworkers/users_worker.py] is not part of the sources at hand: the
    result of evaluating [UsersWorker.handle_message(data)], the
    attribute being looked up on the class object stored in [workers],
    is left open. *)
Variable UsersWorker_handle_message : json -> W -> list outbound * res unit * W.

Definition class_handle_message (cls : worker_class) :
    json -> W -> list outbound * res unit * W :=
  match cls with
  | UsersWorker => UsersWorker_handle_message
  end.

(** [WsWorker.__init__]: every registered class is called once with the
    connection and the database and the resulting instance is dropped;
    [self.workers] stays the class-level dict of classes. *)
Definition init_constructed : list worker_class := (map_to_list workers).*2.

(** [WsWorker.direct_message(target, data)]. *)
Definition direct_message (target : string) (data : json) (w : W) :
    list outbound * res unit * W :=
  match workers !! target with
  | None => ([SendJson (error_reply "Target not found.")], Ok tt, w)
  | Some cls => class_handle_message cls data w
  end.

Definition send_continue (msg : string) (w : W) : list outbound * step_end * W :=
  ([SendJson (error_reply msg)], StepContinue, w).

(** One iteration of the body of [while True] in [WsWorker.run], on the
    frame the peer supplies to [receive_json].  In the disconnect branch
    [close()] is taken to return. *)
Definition run_body (f : inbound) (w : W) : list outbound * step_end * W :=
  match receive_json f with
  | Raise WebSocketDisconnect => ([Close], StepReturn, w)
  | Raise KeyError => send_continue "Invalid data." w
  | Raise e => ([], StepRaise e, w)
  | Ok content =>
    if is_empty_dict content then send_continue "No data provided." w
    else
      match verify_field content "target" T_str with
      | Raise e => ([], StepRaise e, w)
      | Ok false => send_continue "No target provided or target invalid." w
      | Ok true =>
        match verify_field content "data" T_dict with
        | Raise e => ([], StepRaise e, w)
        | Ok false => send_continue "No data provided or data invalid." w
        | Ok true =>
          match py_getitem content "target", py_getitem content "data" with
          | Ok (JStr target), Ok data =>
            if bool_decide (target = "ping")
            then ([SendJson (obj [("target", JStr "pong")])], StepContinue, w)
            else
              match verify_field data "action" T_str with
              | Raise e => ([], StepRaise e, w)
              | Ok false => send_continue "No action provided or action invalid." w
              | Ok true =>
                match verify_field data "data" T_dict with
                | Raise e => ([], StepRaise e, w)
                | Ok false => send_continue "No data provided or data invalid." w
                | Ok true =>
                  match direct_message target data w with
                  | (out, Ok _, w') => (out, StepContinue, w')
                  | (out, Raise e, w') => (out, StepRaise e, w')
                  end
                end
              end
          (* not reached: both fields passed [verify_field] above *)
          | Raise e, _ => ([], StepRaise e, w)
          | _, Raise e => ([], StepRaise e, w)
          | Ok _, Ok _ => ([], StepRaise TypeError, w)
          end
        end
      end
  end.

(** [WsWorker.run] on the frames the peer supplies, in order. *)
Fixpoint run (frames : list inbound) (w : W) : list outbound * loop_end * W :=
  match frames with
  | [] => ([], Listening, w)
  | f :: rest =>
    match run_body f w with
    | (out, StepContinue, w1) =>
      let '(out', e, w2) := run rest w1 in ((out ++ out')%list, e, w2)
    | (out, StepReturn, w1) => (out, Returned, w1)
    | (out, StepRaise e, w1) => (out, Crashed e, w1)
    end
  end.

End Worker.

End Framing.

(* ===================================================================== *)
(** ** Configuration: [config/models/auth.py] *)
(* ===================================================================== *)

Module Config.

(** A configuration value as read from the settings. *)
Inductive cfg_value : Type :=
| CvStr (s : string)
| CvNum (z : Z).

(** [class CfAuth]: one field per entry of [__slots__], in that order. *)
Record CfAuth : Type := {
  secret_key : string;
  key_expires : Z;
  key_size : Z;
  fail_wait_time : Z;
  max_fail_attempts : Z;
  fail_lock_time : Z;
  admin_auth_timeout : Z;
}.

(** Attribute access on a [CfAuth] instance.  The class declares
    [__slots__], so exactly the seven names above resolve and every other
    name raises [AttributeError]. *)
Definition getattr (c : CfAuth) (name : string) : res cfg_value :=
  if bool_decide (name = "secret_key") then Ok (CvStr (secret_key c))
  else if bool_decide (name = "key_expires") then Ok (CvNum (key_expires c))
  else if bool_decide (name = "key_size") then Ok (CvNum (key_size c))
  else if bool_decide (name = "fail_wait_time") then Ok (CvNum (fail_wait_time c))
  else if bool_decide (name = "max_fail_attempts") then Ok (CvNum (max_fail_attempts c))
  else if bool_decide (name = "fail_lock_time") then Ok (CvNum (fail_lock_time c))
  else if bool_decide (name = "admin_auth_timeout") then Ok (CvNum (admin_auth_timeout c))
  else Raise AttributeError.

(** A configuration attribute used as a number (an operand of [>=], or the
    [seconds] argument of [timedelta]). *)
Definition as_number (r : res cfg_value) : res Z :=
  try! v := r in
  match v with
  | CvNum z => Ok z
  | CvStr _ => Raise TypeError
  end.

End Config.

(* ===================================================================== *)
(** ** Persistence: [secure_handler.py], [user_handler.py] *)
(* ===================================================================== *)

Module Db.

(** Row identifiers ([UUID]). *)
Definition UUID : Type := positive.

(** The tables the handlers read and write; a table is the list of its
    rows in insertion order. *)
Record user_row : Type := {
  user_id : UUID;
  user_created_at : Z;
  user_email : string;
  user_username : string;
  user_tag : Z;
}.

Record password_row : Type := {
  pw_user_id : UUID;
  pw_hash : string;
  pw_last_updated : Z;
}.

Record token_row : Type := {
  tok_id : UUID;
  tok_created_at : Z;
  tok_user_id : UUID;
  tok_type : Z;
}.

Record code_row : Type := {
  vc_id : UUID;
  vc_created_at : Z;
  vc_user_id : UUID;
  vc_code : string;
  vc_expires : Z;
}.

Record database : Type := {
  users : list user_row;
  passwords : list password_row;
  tokens : list token_row;
  verification_codes : list code_row;
}.

(** A column value and a [DictRow]: the selected columns by name. *)
Inductive sqlval : Type :=
| VText (s : string)
| VInt (z : Z)
| VUuid (u : UUID).

Definition DictRow : Type := gmap string sqlval.

Definition row_getitem (row : DictRow) (key : string) : res sqlval :=
  match row !! key with
  | Some v => Ok v
  | None => Raise KeyError
  end.

(** [models.secure.Password]. *)
Record Password : Type := {
  hash : sqlval;
  last_updated : sqlval;
}.

(** *** [UsersHandler] lookups *)

(** [SELECT 1 FROM users WHERE email = %s] then [bool(fetchone())]. *)
Definition email_exists (d : database) (email : string) : bool :=
  match filter (fun r => user_email r = email) (users d) with
  | [] => false
  | _ :: _ => true
  end.

(** [SELECT 1 FROM users WHERE id = %s] then [bool(fetchone())]. *)
Definition id_exists (d : database) (id : UUID) : bool :=
  match filter (fun r => user_id r = id) (users d) with
  | [] => false
  | _ :: _ => true
  end.

(** [UsersHandler.email_get]. *)
Definition email_get (d : database) (email : string) : res user_row :=
  match filter (fun r => user_email r = email) (users d) with
  | [] => Raise UserDoesNotExist
  | row :: _ => Ok row
  end.

(** [UsersHandler.delete]. *)
Definition delete (d : database) (id : UUID) : res unit * database :=
  if negb (id_exists d id) then (Raise UserDoesNotExist, d)
  else (Ok tt,
        {| users := filter (fun r => user_id r ≠ id) (users d);
           passwords := passwords d;
           tokens := tokens d;
           verification_codes := verification_codes d |}).

(** [ORDER BY created_at DESC]: insertion into a list kept in descending
    order of [created_at]. *)
Fixpoint insert_desc (r : user_row) (l : list user_row) : list user_row :=
  match l with
  | [] => [r]
  | x :: l' =>
    if bool_decide (user_created_at x < user_created_at r)
    then r :: x :: l'
    else x :: insert_desc r l'
  end.

Definition order_by_created_desc (l : list user_row) : list user_row :=
  foldr insert_desc [] l.

(** [UsersHandler.get(page, page_size)]:
    [... ORDER BY created_at DESC LIMIT page_size OFFSET page * page_size],
    for the values the store accepts as [LIMIT] and [OFFSET]
    (non-negative, within 64 bits); rows equal in [created_at] come in
    the order [insert_desc] gives them, where the store may choose. *)
Definition get (d : database) (page page_size : Z) : list user_row :=
  take (Z.to_nat page_size)
       (drop (Z.to_nat (page * page_size)) (order_by_created_desc (users d))).

(** *** [SecureHandler] *)

(** [SecureHandler.get_password(user_id)]: the query selects the columns
    [hash] and [last_updated]; the row is then read under the keys
    ["password"] and ["last_updated"]. *)
Definition get_password (d : database) (uid : UUID) : res (option Password) :=
  match filter (fun r => pw_user_id r = uid) (passwords d) with
  | [] => Ok None
  | r :: _ =>
    let row : DictRow :=
      {[ "hash" := VText (pw_hash r); "last_updated" := VInt (pw_last_updated r) ]} in
    try! h := row_getitem row "password" in
    try! lu := row_getitem row "last_updated" in
    Ok (Some {| hash := h; last_updated := lu |})
  end.

(** A call of [self.secure.get_password] on the positional arguments
    [args]: the method has exactly one
    parameter besides [self], and a call with another number of positional
    arguments raises [TypeError] before the body runs. *)
Definition call_get_password (d : database) (args : list UUID) : res (option Password) :=
  match args with
  | [uid] => get_password d uid
  | _ => Raise TypeError
  end.

(** [await e] where [e] evaluated to a plain value, not an awaitable. *)
Definition await_plain {A} (_ : A) : res A := Raise TypeError.

(** [SecureHandler.new_token(user_id, token_type=0)]; the row id and
    [created_at] come from the store ([RETURNING id, created_at]). *)
Definition new_token (d : database) (uid : UUID) (token_type : Z)
    (fresh_id : UUID) (now : Z) : token_row * database :=
  let row := {| tok_id := fresh_id; tok_created_at := now;
                tok_user_id := uid; tok_type := token_type |} in
  (row,
   {| users := users d;
      passwords := passwords d;
      tokens := tokens d ++ [row];
      verification_codes := verification_codes d |}).

Section Login.

(** [crypt_context.verify] of the password-hashing library, applied to
    the supplied password and to whatever [get_password] returned. *)
Variable crypt_context_verify : string -> option Password -> bool.

(** [SecureHandler.verify_password], a synchronous static method. *)
Definition verify_password (password : string) (hashed : option Password) : bool :=
  crypt_context_verify password hashed.

(** [UsersHandler.session_new(email, password)]. *)
Definition session_new (d : database) (email password : string)
    (fresh_id : UUID) (now : Z) : res token_row * database :=
  if negb (email_exists d email) then (Raise UserDoesNotExist, d)
  else
    match email_get d email with
    | Raise e => (Raise e, d)
    | Ok user =>
      match call_get_password d [] with
      | Raise e => (Raise e, d)
      | Ok stored =>
        match await_plain (verify_password password stored) with
        | Raise e => (Raise e, d)
        | Ok verified =>
          if negb verified then (Raise PasswordIncorrectException, d)
          else
            let '(tok, d') := new_token d (user_id user) 0 fresh_id now in
            (Ok tok, d')
        end
      end
    end.

End Login.

(** *** Verification codes *)

(** [SELECT * FROM secured.verification_codes WHERE user_id = %s]. *)
Definition codes_of_user (d : database) (uid : UUID) : list code_row :=
  filter (fun r => vc_user_id r = uid) (verification_codes d).

(** The [while 1] loop of [make_verification_code]: draw a candidate,
    select the rows of the user, leave the loop when [fetchone()] is
    [None].  [draw i] is the [i]-th result of [token_urlsafe(256)]; the
    loop runs for at most [fuel] iterations and [None] reports that it is
    still running after them. *)
Fixpoint pick_code (fuel : nat) (draw : nat -> string) (i : nat)
    (d : database) (uid : UUID) : option string :=
  match fuel with
  | O => None
  | S fuel' =>
    let code := draw i in
    match codes_of_user d uid with
    | [] => Some code
    | _ :: _ => pick_code fuel' draw (S i) d uid
    end
  end.

(** [SecureHandler.make_verification_code(user_id)].  [days] and [hours]
    are [CONFIG.user_security.verification_expires_days/_hours]. *)
Definition make_verification_code (fuel : nat) (draw : nat -> string)
    (days hours : Z) (d : database) (uid : UUID) (fresh_id : UUID) (now : Z) :
    option (code_row * database) :=
  let expires := now + days * 86400 + hours * 3600 in
  match pick_code fuel draw 0 d uid with
  | None => None
  | Some code =>
    let kept := filter (fun r => vc_user_id r ≠ uid) (verification_codes d) in
    let row := {| vc_id := fresh_id; vc_created_at := now; vc_user_id := uid;
                  vc_code := code; vc_expires := expires |} in
    Some (row,
          {| users := users d;
             passwords := passwords d;
             tokens := tokens d;
             verification_codes := kept ++ [row] |})
  end.

(** [SELECT * FROM secured.verification_codes WHERE code = %s] then
    [fetchone()], as in [get_verification_code]. *)
Definition resolve_code (d : database) (code : string) : option code_row :=
  head (filter (fun r => vc_code r = code) (verification_codes d)).

End Db.

(* ===================================================================== *)
(** ** The admin handler: [admin_worker.py] *)
(* ===================================================================== *)

Module Admin.

(** The identity of a [WebSocket] object, the key of the two module-level
    dicts. *)
Definition conn : Type := positive.

(** The module-level dicts [admins] and [waitlist], and the database the
    handler is bound to. *)
Record world : Type := {
  admins : gmap conn Z;
  waitlist : gmap conn (list Z);
  database : Db.database;
}.

Definition set_admins (f : gmap conn Z -> gmap conn Z) (w : world) : world :=
  {| admins := f (admins w); waitlist := waitlist w; database := database w |}.

Definition set_waitlist (f : gmap conn (list Z) -> gmap conn (list Z)) (w : world) : world :=
  {| admins := admins w; waitlist := f (waitlist w); database := database w |}.

Definition set_database (d : Db.database) (w : world) : world :=
  {| admins := admins w; waitlist := waitlist w; database := d |}.

(** What one call of [_auth] takes from its surroundings: the reading of
    [datetime.now()] in the gate, the result of [token_bytes(32)], the
    frame the peer answers the challenge with, and the reading of
    [datetime.now()] when the outcome is recorded. *)
Record auth_env : Type := {
  now_gate : Z;
  token : bytes;
  client_frame : inbound;
  now_record : Z;
}.

(** Replies. *)
Definition wait_reply : json := error_reply "You must wait before trying again.".
Definition auth_failed_reply : json :=
  obj [("target", JStr "admin"); ("data", obj [("message", JStr "Authentication failed.")])].
Definition authenticated_reply : json := obj [("message", JStr "Authenticated.")].
Definition not_authenticated_reply : json := error_reply "Not authenticated.".
Definition success_reply (action : string) : json :=
  obj [("action", JStr action); ("data", obj [("success", JBool true)])].

(** [max(len(l) - 1, 0)]. *)
Definition gate_index (l : list Z) : Z := Z.max (Z.of_nat (length l) - 1) 0.

(** [l[i]] for a non-negative index. *)
Definition list_getitem (l : list Z) (i : Z) : res Z :=
  match l !! Z.to_nat i with
  | Some x => Ok x
  | None => Raise IndexError
  end.

Section Handler.

(** [md5(...).digest()] and [rsa.encrypt(..., CONFIG.server.owner_public_key)]. *)
Variable md5 : bytes -> bytes.
Variable encrypt : bytes -> bytes.

(** Attribute lookup on the object [CONFIG.auth]. *)
Variable CONFIG_auth : string -> res Config.cfg_value.

(** The input models of [models/validation/admin.py], not among the
    sources at hand: [None] stands for [ValidationError], otherwise the
    validated [data.page], [data.page_size], respectively [data.id]. *)
Variable GetUsersInput : json -> option (Z * Z).
Variable DeleteUserInput : json -> option Db.UUID.

(** [user.to_public()] followed by [model_dump(mode="json")]. *)
Variable public_user : Db.user_row -> json.

Definition auth_seconds (name : string) : res Z := Config.as_number (CONFIG_auth name).

(** The waitlist gate at the head of [_auth]: [Ok true] when the client
    must wait. *)
Definition must_wait (c : conn) (now : Z) (w : world) : res bool :=
  match waitlist w !! c with
  | Some l =>
    try! t := list_getitem l (gate_index l) in
    Ok (bool_decide (now < t))
  | None => Ok false
  end.

(** The timestamp appended after a failed attempt. *)
Definition retry_not_before (c : conn) (now : Z) (w : world) : res (list Z) :=
  match waitlist w !! c with
  | Some l =>
    try! m := auth_seconds "max_fail_attempts" in
    if bool_decide (m <= Z.of_nat (length l))
    then try! s := auth_seconds "fail_lock_time" in Ok (l ++ [now + s])%list
    else try! s := auth_seconds "fail_timeout" in Ok (l ++ [now + s])%list
  | None =>
    try! s := auth_seconds "fail_timeout" in Ok [now + s]
  end.

(** [AdminWorker._auth]. *)
Definition _auth (c : conn) (data : json) (env : auth_env) (w : world) :
    list outbound * res unit * world :=
  match must_wait c (now_gate env) w with
  | Raise e => ([], Raise e, w)
  | Ok true => ([SendJson wait_reply], Ok tt, w)
  | Ok false =>
    let encrypted_token := encrypt (token env) in
    let client_expected := md5 (token env) in
    match receive_bytes (client_frame env) with
    | Raise WebSocketDisconnect => ([SendBytes encrypted_token], Ok tt, w)
    | Raise e => ([SendBytes encrypted_token], Raise e, w)
    | Ok client_actual =>
      if bool_decide (client_actual ≠ client_expected) then
        let out := [SendBytes encrypted_token; SendJson auth_failed_reply] in
        match retry_not_before c (now_record env) w with
        | Raise e => (out, Raise e, w)
        | Ok l' => (out, Ok tt, set_waitlist <[c := l']> w)
        end
      else
        match auth_seconds "admin_auth_timeout" with
        | Raise e => ([SendBytes encrypted_token], Raise e, w)
        | Ok s =>
          ([SendBytes encrypted_token; SendJson authenticated_reply], Ok tt,
           set_admins <[c := now_record env + s]> w)
        end
    end
  end.

(** [AdminWorker._logoff]. *)
Definition _logoff (c : conn) (data : json) (w : world) :
    list outbound * res unit * world :=
  match admins w !! c with
  | None => ([SendJson not_authenticated_reply], Ok tt, w)
  | Some _ =>
    let w1 := set_admins (delete c) w in
    match waitlist w1 !! c with
    | None => ([], Raise KeyError, w1)
    | Some _ =>
      ([SendJson (success_reply "logoff")], Ok tt, set_waitlist (delete c) w1)
    end
  end.

(** [AdminWorker._get_users]. *)
Definition _get_users (c : conn) (data : json) (w : world) :
    list outbound * res unit * world :=
  match GetUsersInput data with
  | None => ([SendJson (error_reply "Invalid data.")], Ok tt, w)
  | Some (page, page_size) =>
    let users := Db.get (database w) page page_size in
    ([SendJson (obj [("action", JStr "users"); ("data", JArr (map public_user users))])],
     Ok tt, w)
  end.

(** [AdminWorker._get_user]: the body is only a docstring. *)
Definition _get_user (c : conn) (data : json) (w : world) :
    list outbound * res unit * world :=
  ([], Ok tt, w).

(** [AdminWorker._delete_user]. *)
Definition _delete_user (c : conn) (data : json) (w : world) :
    list outbound * res unit * world :=
  match DeleteUserInput data with
  | None => ([SendJson (error_reply "Invalid data.")], Ok tt, w)
  | Some id =>
    match Db.delete (database w) id with
    | (Raise UserDoesNotExist, _) =>
      ([SendJson (error_reply "User does not exist.")], Ok tt, w)
    | (Raise e, d) => ([], Raise e, set_database d w)
    | (Ok _, d) => ([SendJson (success_reply "delete_user")], Ok tt, set_database d w)
    end
  end.

(** [data.get("action")]. *)
Definition dict_get (data : json) (key : string) : res json :=
  match data with
  | JObj m => Ok (default JNull (m !! key))
  | _ => Raise AttributeError
  end.

(** [AdminWorker.handle_message]. *)
Definition handle_message (c : conn) (data : json) (env : auth_env) (w : world) :
    list outbound * res unit * world :=
  match dict_get data "action" with
  | Raise e => ([], Raise e, w)
  | Ok (JStr action) =>
    if bool_decide (action = "auth") then _auth c data env w
    else if bool_decide (action = "logoff") then _logoff c data w
    else if bool_decide (action = "get_users") then _get_users c data w
    else if bool_decide (action = "get_user") then _get_user c data w
    else if bool_decide (action = "delete_user") then _delete_user c data w
    else ([SendJson (error_reply "Invalid action.")], Ok tt, w)
  | Ok _ => ([SendJson (error_reply "Invalid action.")], Ok tt, w)
  end.

End Handler.

End Admin.

(* ===================================================================== *)
(** ** Connections over the shared maps *)
(* ===================================================================== *)

Module System.

Import Admin.

(** What can happen to the shared state: an admin message of connection
    [c] is handled, or connection [c] is found disconnected by the
    [receive_json] step of its [WsWorker.run] loop. *)
Inductive event : Type :=
| EvAdmin (c : conn) (data : json) (env : auth_env)
| EvDisconnect (c : conn).

Section Run.

Variable md5 : bytes -> bytes.
Variable encrypt : bytes -> bytes.
Variable CONFIG_auth : string -> res Config.cfg_value.
Variable GetUsersInput : json -> option (Z * Z).
Variable DeleteUserInput : json -> option Db.UUID.
Variable public_user : Db.user_row -> json.
Variable UsersWorker_handle_message : json -> world -> list outbound * res unit * world.

Definition step (w : world) (ev : event) : world :=
  match ev with
  | EvAdmin c data env =>
    (handle_message md5 encrypt CONFIG_auth GetUsersInput DeleteUserInput
                    public_user c data env w).2
  | EvDisconnect c =>
    (Framing.run_body UsersWorker_handle_message InDisconnect w).2
  end.

Definition exec (w : world) (evs : list event) : world := foldl step w evs.

End Run.

(** The event is a [logoff] message. *)
Definition is_logoff (ev : event) : bool :=
  match ev with
  | EvAdmin _ (JObj m) _ =>
    match m !! "action" with
    | Some (JStr a) => bool_decide (a = "logoff")
    | _ => false
    end
  | _ => false
  end.

(** The relation between the shared state before and after events that
    only add: every authenticated entry is still present and every failure
    record has at most been extended at its end. *)
Definition extends (w w' : world) : Prop :=
  (forall c, is_Some (admins w !! c) -> is_Some (admins w' !! c)) /\
  (forall c l, waitlist w !! c = Some l ->
               exists l', waitlist w' !! c = Some (l ++ l')%list).

(** The event is a [logoff] message of connection [c]. *)
Definition is_logoff_of (c : conn) (ev : event) : bool :=
  match ev with
  | EvAdmin c' _ _ => bool_decide (c' = c) && is_logoff ev
  | EvDisconnect _ => false
  end.

(** What [extends] says, for the entries of one connection. *)
Definition keeps (c : conn) (w w' : world) : Prop :=
  (is_Some (admins w !! c) -> is_Some (admins w' !! c)) /\
  (forall l, waitlist w !! c = Some l ->
             exists l', waitlist w' !! c = Some (l ++ l')%list).

End System.

(* ===================================================================== *)
(** ** Sample states *)
(* ===================================================================== *)

Module Samples.

Import Db Admin System.

(** A store with one user, whose password is stored. *)
Definition d_login : Db.database :=
  {| users := [ {| user_id := 7%positive; user_created_at := 1000;
                   user_email := "a@example.org"; user_username := "a";
                   user_tag := 123456 |} ];
     passwords := [ {| pw_user_id := 7%positive; pw_hash := "h(secret)";
                       pw_last_updated := 1000 |} ];
     tokens := [];
     verification_codes := [] |}.

(** A store in which user 7 holds a live code. *)
Definition d_code : Db.database :=
  {| users := users d_login;
     passwords := passwords d_login;
     tokens := [];
     verification_codes :=
       [ {| vc_id := 3%positive; vc_created_at := 1000; vc_user_id := 7%positive;
            vc_code := "old-code"; vc_expires := 90000 |} ] |}.

(** A configuration object as [CfAuth] builds it. *)
Definition cfg0 : Config.CfAuth :=
  {| Config.secret_key := "k"; Config.key_expires := 3600; Config.key_size := 32;
     Config.fail_wait_time := 5; Config.max_fail_attempts := 3;
     Config.fail_lock_time := 600; Config.admin_auth_timeout := 900 |}.

(** Stand-ins for the digest and the cipher in the samples. *)
Definition md5_0 (b : bytes) : bytes := rev b.
Definition encrypt_0 (b : bytes) : bytes := (Byte.x00 :: b)%list.

Definition d_empty : Db.database :=
  {| users := []; passwords := []; tokens := []; verification_codes := [] |}.

(** No connection authenticated, none on the waitlist. *)
Definition w_fresh : world :=
  {| admins := ∅; waitlist := ∅; database := d_empty |}.

(** Connection 1 authenticated until time 500 and never failed. *)
Definition w_clean_admin : world :=
  {| admins := {[ 1%positive := 500 ]}; waitlist := ∅; database := d_empty |}.

(** Connection 1 failed twice: retry not before 5, then not before 100. *)
Definition w_waiting : world :=
  {| admins := ∅; waitlist := {[ 1%positive := [5; 100] ]}; database := d_empty |}.

Definition token_0 : bytes := [Byte.x01; Byte.x02].

(** The peer answers the challenge with the right digest at time 50. *)
Definition env_right : auth_env :=
  {| now_gate := 50; token := token_0; client_frame := InBytes (md5_0 token_0);
     now_record := 50 |}.

(** The peer answers with the plain token instead of its digest. *)
Definition env_wrong : auth_env :=
  {| now_gate := 50; token := token_0; client_frame := InBytes token_0;
     now_record := 50 |}.

Definition msg (action : string) : json :=
  obj [("action", JStr action); ("data", JObj ∅)].

(** Connection 1 answers the challenge correctly at time 50 and then
    disconnects without logging off. *)
Definition auth_then_disconnect : list event :=
  [EvAdmin 1%positive (msg "auth") env_right; EvDisconnect 1%positive].

End Samples.

(* ===================================================================== *)
(** ** The rest of [secure_handler.py] *)
(* ===================================================================== *)

Module Secure.

Import Db.

Section Passwords.

(** [crypt_context.hash] of the password-hashing library; the salt it
    draws is its first argument here. *)
Variable crypt_context_hash : string -> string -> string.

(** [SecureHandler.hash_password]. *)
Definition hash_password (salt password : string) : string :=
  crypt_context_hash salt password.

(** [SecureHandler.set_password(user_id, password)]: hash, delete the
    rows of the user, insert the new row; [last_updated] is filled in by
    the store. *)
Definition set_password (salt : string) (now : Z) (d : database) (uid : UUID)
    (password : string) : database :=
  let hashed := hash_password salt password in
  {| users := users d;
     passwords := filter (fun r => pw_user_id r ≠ uid) (passwords d)
                  ++ [ {| pw_user_id := uid; pw_hash := hashed; pw_last_updated := now |} ];
     tokens := tokens d;
     verification_codes := verification_codes d |}.

End Passwords.

(** [SecureHandler.exists_token]: [SELECT 1 ... WHERE id = %s] then
    [bool(fetchone())]. *)
Definition exists_token (d : database) (id : UUID) : bool :=
  match filter (fun r => tok_id r = id) (tokens d) with
  | [] => false
  | _ :: _ => true
  end.

(** [SecureHandler.get_token]: [DoesNotExist] when [exists_token] is
    false, otherwise the [Token] built on [fetchone()] of the second
    query. *)
Definition get_token (d : database) (id : UUID) : res (option token_row) :=
  if negb (exists_token d id) then Raise DoesNotExist
  else Ok (head (filter (fun r => tok_id r = id) (tokens d))).

(** [SecureHandler.get_tokens]: one [Token] per row of the user. *)
Definition get_tokens (d : database) (uid : UUID) : list token_row :=
  filter (fun r => tok_user_id r = uid) (tokens d).

End Secure.

(* ===================================================================== *)
(** ** The rest of [user_handler.py], with [mail/mailer.py] *)
(* ===================================================================== *)

Module Accounts.

Import Db.

(** The store [UsersHandler.new] writes to: the tables above, the user
    ids of the rows of [secured.config], and the messages handed to the
    SMTP connection as (recipient, subject, body). *)
Record store : Type := {
  db : database;
  config : list UUID;
  outbox : list (string * string * string);
}.

(** How [new] ends: with the row of the new user, with
    [UserAlreadyExists], or still inside one of its two loops after the
    allowed number of iterations. *)
Inductive new_outcome : Type :=
| NewOk (row : user_row)
| NewAlreadyExists
| NewRunning.

(** [int(str(tag)[:6])] for a non-negative [tag]: drop decimal digits
    from the right until at most six are left.  [fuel] bounds the number
    of digits dropped. *)
Fixpoint first_six_digits (fuel : nat) (n : Z) : Z :=
  match fuel with
  | O => n
  | S fuel' => if bool_decide (n < 1000000) then n else first_six_digits fuel' (n / 10)
  end.

(** [SELECT 1 FROM users WHERE username = %s AND tag = %s] then
    [fetchone()]. *)
Definition tag_in_use (d : database) (username : string) (tag : Z) : bool :=
  match filter (fun r => user_username r = username /\ user_tag r = tag) (users d) with
  | [] => false
  | _ :: _ => true
  end.

(** The [while True] loop of [new]: keep the tag when no user of that
    name has it, otherwise move to the next candidate.  [candidate i] is
    the tag computed from the [i]-th draw of [urandom(16)]. *)
Fixpoint pick_tag (fuel : nat) (candidate : nat -> Z) (i : nat)
    (d : database) (username : string) (tag : Z) : option Z :=
  match fuel with
  | O => None
  | S fuel' =>
    if tag_in_use d username tag
    then pick_tag fuel' candidate (S i) d username (candidate i)
    else Some tag
  end.

Definition newline : string := String (Ascii.ascii_of_nat 10) "".

(** The body built by [Mailer.send_verification_code]; [server_name] and
    [server_host] are [CONFIG.server.name] and [CONFIG.server.host]. *)
Definition verification_body (server_name server_host code : string) : string :=
  "Someone is trying to register an account for you on an echo-api server named "
  ++ server_name ++ ". " ++ newline
  ++ "            " ++ newline
  ++ "            If this was not you, you can safely ignore this email." ++ newline
  ++ "            " ++ newline
  ++ "            If this was you, please click the following link to verify your email address and start using echo on this host: https://"
  ++ server_host ++ "/users/verify/" ++ code ++ newline
  ++ "            ".

(** [Mailer.send_verification_code(user, code)] through [Mailer._send]. *)
Definition send_verification_code (server_name server_host : string)
    (user code : string) (s : store) : store :=
  {| db := db s;
     config := config s;
     outbox := outbox s
               ++ [(user, "Verify Your Email", verification_body server_name server_host code)] |}.

(** [SecureHandler.make_config(user_id)]. *)
Definition make_config (uid : UUID) (s : store) : store :=
  {| db := db s; config := config s ++ [uid]; outbox := outbox s |}.

(** What one call of [new] takes from its surroundings. *)
Record new_env : Type := {
  salt_outer : string;          (* salt of the hash taken in [new] *)
  salt_inner : string;          (* salt of the hash taken in [set_password] *)
  urandom_str : nat -> string;  (* [str(urandom(16))], draw by draw *)
  code_draw : nat -> string;    (* [token_urlsafe(256)], draw by draw *)
  new_user_id : UUID;           (* [id] of the inserted user row *)
  new_code_id : UUID;           (* [id] of the inserted code row *)
  new_now : Z;                  (* the clock *)
}.

Section New.

Variable crypt_context_hash : string -> string -> string.

(** [int.from_bytes(sha1(s.encode()).digest())], a non-negative integer
    below [2 ^ 160]. *)
Variable sha1_int : string -> Z.

Variable server_name server_host : string.

(** [CONFIG.user_security.verification_expires_days/_hours]. *)
Variable days hours : Z.

(** The tag of a hashed string: at most 49 decimal digits go in. *)
Definition tag_of (s : string) : Z := first_six_digits 49 (sha1_int s).

(** [UsersHandler.new(email, username, password)]. *)
Definition new (fuel : nat) (env : new_env) (s : store)
    (email username password : string) : new_outcome * store :=
  let password := Secure.hash_password crypt_context_hash (salt_outer env) password in
  if email_exists (db s) email then (NewAlreadyExists, s)
  else
    let tag := tag_of (email ++ username) in
    match pick_tag fuel
            (fun i => tag_of (email ++ username ++ urandom_str env i)) 0
            (db s) username tag with
    | None => (NewRunning, s)
    | Some tag =>
      let row := {| user_id := new_user_id env; user_created_at := new_now env;
                    user_email := email; user_username := username; user_tag := tag |} in
      let d1 := {| users := users (db s) ++ [row];
                   passwords := passwords (db s);
                   tokens := tokens (db s);
                   verification_codes := verification_codes (db s) |} in
      let d2 := Secure.set_password crypt_context_hash (salt_inner env) (new_now env)
                                    d1 (user_id row) password in
      match make_verification_code fuel (code_draw env) days hours d2 (user_id row)
                                   (new_code_id env) (new_now env) with
      | None => (NewRunning, {| db := d2; config := config s; outbox := outbox s |})
      | Some (code, d3) =>
        (* [await code.get_code()] reads the [code] column of the new row *)
        let s3 := {| db := d3; config := config s; outbox := outbox s |} in
        let s4 := send_verification_code server_name server_host email (vc_code code) s3 in
        (NewOk row, make_config (user_id row) s4)
      end
    end.

End New.

(** The order [ORDER BY created_at DESC] asks for between a row and a
    later one. *)
Definition newer_first (a b : user_row) : Prop := user_created_at b <= user_created_at a.

Section Sessions.

(** [stored_token.get_user_id()] and [self.users.id_get(...)], which rest
    on [db/types/base_type.py] and on the cursor protocol of the database
    driver. *)
Variable token_get_user_id : database -> option token_row -> res UUID.
Variable users_id_get : database -> UUID -> res user_row.

(** [UsersHandler.session_verify(email, token)], on the id of the
    submitted token model. *)
Definition session_verify (d : database) (email : string) (token_id : UUID) :
    res (option user_row) :=
  match Secure.get_token d token_id with
  | Raise DoesNotExist => Ok None
  | Raise e => Raise e
  | Ok stored_token =>
    try! actual_user := email_get d email in
    try! owner := token_get_user_id d stored_token in
    try! expected_user := users_id_get d owner in
    if bool_decide (user_id actual_user ≠ user_id expected_user) then Ok None
    else Ok (Some actual_user)
  end.

End Sessions.

End Accounts.

(* ===================================================================== *)
(** ** Test support: [tests/shared.py] *)
(* ===================================================================== *)

Module TestSupport.

(** [c * n] for a one-character string [c]: empty when [n <= 0]. *)
Definition repeat_char (c : Ascii.ascii) (n : Z) : string :=
  string_of_list_ascii (repeat c (Z.to_nat n)).

(** The five characters [random_choice] returns in one call of
    [generate_password]: one per character class and the padding
    character. *)
Record choices : Type := {
  c_lower : Ascii.ascii;
  c_upper : Ascii.ascii;
  c_number : Ascii.ascii;
  c_special : Ascii.ascii;
  c_padding : Ascii.ascii;
}.

Definition valid_padding_type (t : string) : bool :=
  bool_decide (t = "lower") || bool_decide (t = "upper") || bool_decide (t = "number")
  || bool_decide (t = "special") || bool_decide (t = "random").

(** [generate_password]; [None] stands for [ValueError].  The padding
    loop [for _ in range(length - len(password))] draws from the
    one-character string [padding], hence appends that character each
    time. *)
Definition generate_password (num_lowercase num_uppercase num_number num_special
    length : Z) (padding_type : string) (ch : choices) : option string :=
  if bool_decide (length < num_lowercase + num_uppercase + num_number + num_special)
  then None
  else
    let password :=
      repeat_char (c_lower ch) num_lowercase ++ repeat_char (c_upper ch) num_uppercase
      ++ repeat_char (c_number ch) num_number ++ repeat_char (c_special ch) num_special in
    if negb (valid_padding_type padding_type) then None
    else Some (password
               ++ repeat_char (c_padding ch) (length - Z.of_nat (String.length password))).

End TestSupport.

(* ===================================================================== *)
(** ** More sample states *)
(* ===================================================================== *)

Module Samples2.

Import Db Admin System Samples.

(** A handler that echoes the inner object and counts its calls, and one
    that raises. *)
Definition h_echo (data : json) (n : nat) : list outbound * res unit * nat :=
  ([SendJson data], Ok tt, S n).
Definition h_raise (data : json) (n : nat) : list outbound * res unit * nat :=
  ([], Raise TypeError, n).

Definition inner_new : gmap string json :=
  list_to_map [("action", JStr "new"); ("data", JObj ∅)].
Definition envelope_users : gmap string json :=
  list_to_map [("target", JStr "users"); ("data", JObj inner_new)].
Definition envelope_ping : gmap string json :=
  list_to_map [("target", JStr "ping"); ("data", JObj inner_new); ("id", JNum 7)].

(** Three users, created at times 10, 30 and 20. *)
Definition user_a : user_row :=
  {| user_id := 1%positive; user_created_at := 10; user_email := "a@example.org";
     user_username := "a"; user_tag := 111111 |}.
Definition user_b : user_row :=
  {| user_id := 2%positive; user_created_at := 30; user_email := "b@example.org";
     user_username := "b"; user_tag := 222222 |}.
Definition user_c : user_row :=
  {| user_id := 3%positive; user_created_at := 20; user_email := "c@example.org";
     user_username := "c"; user_tag := 333333 |}.

Definition d_three : Db.database :=
  {| users := [user_a; user_b; user_c];
     passwords := [ {| pw_user_id := 1%positive; pw_hash := "h1"; pw_last_updated := 10 |};
                    {| pw_user_id := 2%positive; pw_hash := "h2"; pw_last_updated := 30 |} ];
     tokens := [ {| tok_id := 50%positive; tok_created_at := 40;
                    tok_user_id := 1%positive; tok_type := 0 |} ];
     verification_codes :=
       [ {| vc_id := 60%positive; vc_created_at := 30; vc_user_id := 2%positive;
            vc_code := "code-b"; vc_expires := 90000 |} ] |}.

(** Connection 1 authenticated, nobody waiting, three users stored. *)
Definition w_three : world :=
  {| admins := {[ 1%positive := 500 ]}; waitlist := ∅; database := d_three |}.

(** The same store seen from a state in which nobody is authenticated. *)
Definition w_three_anon : world :=
  {| admins := ∅; waitlist := ∅; database := d_three |}.

(** Stand-ins for the input models: every message asks for page 0 of
    size 2, respectively for the deletion of user 2. *)
Definition get_users_input_0 (data : json) : option (Z * Z) := Some (0, 2).
Definition delete_input_0 (data : json) : option Db.UUID := Some 2%positive.
Definition public_user_0 (r : user_row) : json := JStr (user_email r).


(** A message asking for an action the handler does not know. *)
Definition action_shutdown : gmap string json :=
  list_to_map [("action", JStr "shutdown"); ("data", JObj ∅)].

(** Connection 1 fails the challenge, then passes it, then asks for the
    users. *)
Definition fail_then_succeed : list event :=
  [EvAdmin 1%positive (msg "auth") env_wrong; EvAdmin 1%positive (msg "auth") env_right;
   EvAdmin 1%positive (msg "get_users") env_right].

(** Connections 1 and 2 authenticated; connection 2 failed once before. *)
Definition w_two : world :=
  {| admins := {[ 1%positive := 500; 2%positive := 700 ]};
     waitlist := {[ 2%positive := [3] ]};
     database := d_three |}.

(** Connection 2 logs off, connection 1 passes a new challenge at time 50
    and then disconnects without logging off. *)
Definition other_logs_off : list event :=
  [EvAdmin 2%positive (msg "logoff") env_right;
   EvAdmin 1%positive (msg "auth") env_right;
   EvDisconnect 1%positive].

(** The peer hangs up instead of answering the challenge. *)
Definition env_hangup : auth_env :=
  {| now_gate := 50; token := token_0; client_frame := InDisconnect; now_record := 50 |}.

(** Stand-ins for the hash functions. *)
Definition hash_0 (salt secret : string) : string := salt ++ "$" ++ secret.
Definition sha1_int_0 (s : string) : Z := 123456789 + Z.of_nat (String.length s).

Definition store_three : Accounts.store :=
  {| Accounts.db := d_three; Accounts.config := [1%positive; 2%positive; 3%positive];
     Accounts.outbox := [] |}.

Definition new_env_0 : Accounts.new_env :=
  {| Accounts.salt_outer := "s1"; Accounts.salt_inner := "s2";
     Accounts.urandom_str := fun i => "r";
     Accounts.code_draw := fun i => "fresh-code";
     Accounts.new_user_id := 4%positive; Accounts.new_code_id := 61%positive;
     Accounts.new_now := 100 |}.

(** User "d" signs up on the store with three users. *)
Definition signup_d : Accounts.new_outcome * Accounts.store :=
  Accounts.new hash_0 sha1_int_0 "echo" "echo.example" 1 0 2 new_env_0 store_three
      "d@example.org" "d" "pw".

Definition row_d : user_row :=
  {| user_id := 4%positive; user_created_at := 100; user_email := "d@example.org";
     user_username := "d"; user_tag := 123456 |}.

(** The code issued to user 3 at time 200 with one day of validity. *)
Definition code_c : code_row :=
  {| vc_id := 61%positive; vc_created_at := 200; vc_user_id := 3%positive;
     vc_code := "code-c"; vc_expires := 200 + 1 * 86400 + 0 * 3600 |}.

Definition choices_0 : TestSupport.choices :=
  {| TestSupport.c_lower := "a"%char; TestSupport.c_upper := "B"%char;
     TestSupport.c_number := "3"%char; TestSupport.c_special := "!"%char;
     TestSupport.c_padding := "x"%char |}.

End Samples2.

(* ===================================================================== *)
(** * Properties *)
(* ===================================================================== *)

(** ** Framing and dispatch *)

Module FramingProps.

Import Framing.

Section WithHandler.

Context {W : Type}.
Variable h : json -> W -> list outbound * res unit * W.

Lemma is_empty_dict_spec (v : json) : is_empty_dict v = true <-> v = JObj ∅.
Proof.
  destruct v as [| | | | |m]; simpl; try (split; [discriminate | discriminate]).
  rewrite bool_decide_eq_true. split.
  - intros Hs. f_equal. by apply map_size_empty_iff.
  - intros [= ->]. apply map_size_empty.
Qed.

(** A frame decoding to the empty object is answered with "No data
    provided." and the loop goes on to the next frame. *)
Lemma run_empty_object (rest : list inbound) (w : W) :
  run h (InTextJson (JObj ∅) :: rest) w =
  let '(out, e, w') := run h rest w in
  (SendJson (error_reply "No data provided.") :: out, e, w').
Proof.
  cbn [run].
  replace (run_body h (InTextJson (JObj ∅)) w)
    with ([SendJson (error_reply "No data provided.")], StepContinue, w)
    by (vm_compute; reflexivity).
  destruct (run h rest w) as [[out e] w']. reflexivity.
Qed.

(** A binary frame, which makes [receive_json] raise [KeyError], is
    answered with "Invalid data." and the loop goes on. *)
Lemma run_binary_frame (b : bytes) (rest : list inbound) (w : W) :
  run h (InBytes b :: rest) w =
  let '(out, e, w') := run h rest w in
  (SendJson (error_reply "Invalid data.") :: out, e, w').
Proof. simpl. destruct (run h rest w) as [[out e] w']. reflexivity. Qed.

(** A disconnect closes the connection and ends the loop, whatever
    frames would follow. *)
Lemma run_disconnect (rest : list inbound) (w : W) :
  run h (InDisconnect :: rest) w = ([Close], Returned, w).
Proof. reflexivity. Qed.

(** A ping that also carries a [data] object is answered with the pong
    frame and is not dispatched. *)
Lemma run_ping_with_data (rest : list inbound) (w : W) :
  run h (InTextJson (obj [("target", JStr "ping"); ("data", JObj ∅)]) :: rest) w =
  let '(out, e, w') := run h rest w in
  (SendJson (obj [("target", JStr "pong")]) :: out, e, w').
Proof.
  cbn [run].
  replace (run_body h (InTextJson (obj [("target", JStr "ping"); ("data", JObj ∅)])) w)
    with ([SendJson (obj [("target", JStr "pong")])], StepContinue, w)
    by (vm_compute; reflexivity).
  destruct (run h rest w) as [[out e] w']. reflexivity.
Qed.

(** C1.  The registry [workers] has the single key "users": for the
    target "admin", [direct_message] finds no entry and replies
    [{"error": "Target not found."}], whatever the inner object is; no
    handler is invoked and the state is untouched. *)
Theorem direct_message_admin_not_found (data : json) (w : W) :
  workers !! "admin" = None /\
  direct_message h "admin" data w =
    ([SendJson (error_reply "Target not found.")], Ok tt, w).
Proof.
  assert (Hnone : workers !! "admin" = None)
    by (unfold workers; apply lookup_singleton_ne; discriminate).
  split; [exact Hnone |].
  unfold direct_message. rewrite Hnone. reflexivity.
Qed.

(** The same through the receive loop: a well-formed envelope addressed
    to "admin" passes every field check and is answered with the
    target-not-found error. *)
Example run_admin_envelope (w : W) :
  run h [InTextJson (obj [("target", JStr "admin");
                          ("data", obj [("action", JStr "logoff"); ("data", JObj ∅)])])] w
  = ([SendJson (error_reply "Target not found.")], Listening, w).
Proof. vm_compute. reflexivity. Qed.

(** C6.  The frame [{"target": "ping"}] with no other field fails the
    check of the [data] field, which precedes the ping test: the reply
    is the "No data provided or data invalid." error, not the pong
    frame. *)
Theorem run_bare_ping (w : W) :
  run h [InTextJson (obj [("target", JStr "ping")])] w =
    ([SendJson (error_reply "No data provided or data invalid.")], Listening, w)
  /\ SendJson (error_reply "No data provided or data invalid.")
     <> SendJson (obj [("target", JStr "pong")]).
Proof.
  split.
  - vm_compute. reflexivity.
  - intros Heq.
    apply (f_equal (fun o => match o with
                             | SendJson (JObj m) => m !! "target"
                             | _ => None
                             end)) in Heq.
    vm_compute in Heq. discriminate.
Qed.

(** C7.  Frames that do not decode to an object are not all answered
    with "Invalid data.": malformed text makes [receive_json] raise
    [JSONDecodeError], which the loop does not catch, so [run] ends with
    that exception and the frames after it are never served; a JSON
    number raises [TypeError] inside [verify_field]; a JSON array is
    answered with the missing-target error. *)
Theorem run_undecodable_frames (s : string) (rest : list inbound) (w : W) :
  run h (InTextGarbled s :: rest) w = ([], Crashed JSONDecodeError, w) /\
  run h (InTextJson (JNum 5) :: rest) w = ([], Crashed TypeError, w) /\
  run h [InTextJson (JArr [])] w =
    ([SendJson (error_reply "No target provided or target invalid.")], Listening, w).
Proof. repeat split. Qed.

End WithHandler.

End FramingProps.

(** ** Login and verification codes *)

Module DbProps.

Import Db Samples.

(** [email_get] succeeds exactly where [email_exists] answers [True]. *)
Lemma email_get_of_exists (d : database) (email : string) :
  email_exists d email = true -> exists row, email_get d email = Ok row.
Proof.
  unfold email_exists, email_get.
  destruct (filter _ (users d)) as [|row rows]; [discriminate | eauto].
Qed.

Lemma session_new_unknown_email verify (d : database) (email password : string)
    (fresh_id : UUID) (now : Z) :
  email_exists d email = false ->
  session_new verify d email password fresh_id now = (Raise UserDoesNotExist, d).
Proof. intros He. unfold session_new. rewrite He. reflexivity. Qed.

(** C8.  For an email that resolves to a user, [session_new] raises
    [TypeError], whatever the password and whatever the store holds for
    that user: [get_password] is called without its [user_id] argument.
    No token is issued and the store is unchanged. *)
Theorem session_new_known_email_type_error verify (d : database)
    (email password : string) (fresh_id : UUID) (now : Z) :
  email_exists d email = true ->
  session_new verify d email password fresh_id now = (Raise TypeError, d).
Proof.
  intros He. unfold session_new. rewrite He. simpl negb. cbv iota.
  destruct (email_get_of_exists d email He) as [row ->].
  reflexivity.
Qed.

Lemma session_new_known_email_type_error_witness :
  email_exists d_login "a@example.org" = true /\
  session_new (fun _ _ => true) d_login "a@example.org" "secret" 9%positive 2000
    = (Raise TypeError, d_login).
Proof.
  split; [reflexivity |].
  apply (session_new_known_email_type_error (fun _ _ => true) d_login
           "a@example.org" "secret" 9%positive 2000).
  reflexivity.
Defined.

(** Were the argument supplied, the read of the row would still fail: the
    selected columns are [hash] and [last_updated], the key read is
    ["password"]. *)
Lemma get_password_stored_key_error (d : database) (uid : UUID) :
  filter (fun r => pw_user_id r = uid) (passwords d) <> [] ->
  get_password d uid = Raise KeyError.
Proof.
  intros Hne. unfold get_password.
  destruct (filter _ (passwords d)) as [|r rs]; [congruence |].
  reflexivity.
Qed.

(** *** The candidate loop of [make_verification_code] *)

Lemma pick_code_spins (fuel : nat) (draw : nat -> string) (i : nat)
    (d : database) (uid : UUID) :
  codes_of_user d uid <> [] -> pick_code fuel draw i d uid = None.
Proof.
  intros Hne. revert i.
  induction fuel as [|fuel IH]; intros i; simpl; [reflexivity |].
  destruct (codes_of_user d uid) as [|r rs] eqn:E; [congruence |].
  apply IH.
Qed.


(** C2.  For a user who already has a verification code the loop never
    exits: the query inside it selects by [user_id], the store does not
    change between iterations, so [fetchone()] returns a row every time.
    However many iterations are allowed, [make_verification_code] has not
    returned. *)
Theorem make_verification_code_existing_code_diverges (fuel : nat)
    (draw : nat -> string) (days hours : Z) (d : database) (uid fresh_id : UUID)
    (now : Z) :
  codes_of_user d uid <> [] ->
  make_verification_code fuel draw days hours d uid fresh_id now = None.
Proof.
  intros Hne. unfold make_verification_code.
  rewrite (pick_code_spins fuel draw 0 d uid Hne). reflexivity.
Qed.

Lemma make_verification_code_existing_code_diverges_witness :
  codes_of_user d_code 7%positive <> [] /\
  make_verification_code 1000 (fun _ => "new-code") 1 0 d_code 7%positive 4%positive 2000
    = None.
Proof.
  assert (Hne : codes_of_user d_code 7%positive <> []) by (vm_compute; discriminate).
  split; [exact Hne |].
  apply (make_verification_code_existing_code_diverges 1000 (fun _ => "new-code") 1 0
           d_code 7%positive 4%positive 2000 Hne).
Defined.

Lemma codes_of_user_after_delete (l : list code_row) (uid : UUID) :
  filter (fun r => vc_user_id r = uid) (filter (fun r => vc_user_id r ≠ uid) l) = [].
Proof.
  induction l as [|r l IH]; [reflexivity |].
  destruct (decide (vc_user_id r = uid)) as [Heq|Hne].
  - rewrite (filter_cons_False (fun r => vc_user_id r ≠ uid)) by tauto. exact IH.
  - rewrite (filter_cons_True (fun r => vc_user_id r ≠ uid)) by exact Hne.
    rewrite filter_cons_False by exact Hne. exact IH.
Qed.


End DbProps.

(** ** The admin handler *)

Module AdminProps.

Import Admin Samples.

(** The element the gate reads is the last one of the record. *)
Lemma gate_reads_last (l : list Z) (t : Z) :
  last l = Some t -> list_getitem l (gate_index l) = Ok t.
Proof.
  intros Hl. unfold list_getitem, gate_index.
  rewrite last_lookup in Hl.
  replace (Z.to_nat (Z.max (Z.of_nat (length l) - 1) 0)) with (pred (length l)) by lia.
  rewrite Hl. reflexivity.
Qed.

(** On an empty record the subscript raises. *)
Lemma gate_empty_record : list_getitem [] (gate_index []) = Raise IndexError.
Proof. reflexivity. Qed.

Section WithCollaborators.

Variable md5 : bytes -> bytes.
Variable encrypt : bytes -> bytes.

(** *** The waitlist gate *)

(** C9.  When the connection has a failure record whose last timestamp
    is [t], [_auth] replies "You must wait before trying again." and
    leaves the state as it is if the clock reads less than [t], and
    issues the challenge if [t] has passed.  Only the last timestamp of
    the record matters, whatever attribute lookup [CONFIG.auth] offers. *)
Theorem auth_gate_consults_last CONFIG_auth (c : conn) (data : json)
    (env : auth_env) (w : world) (l : list Z) (t : Z) :
  waitlist w !! c = Some l ->
  last l = Some t ->
  (now_gate env < t ->
     _auth md5 encrypt CONFIG_auth c data env w = ([SendJson wait_reply], Ok tt, w)) /\
  (t <= now_gate env ->
     exists out r w',
       _auth md5 encrypt CONFIG_auth c data env w
         = (SendBytes (encrypt (token env)) :: out, r, w')).
Proof.
  intros Hw Hl.
  assert (Hgate : must_wait c (now_gate env) w = Ok (bool_decide (now_gate env < t))).
  { unfold must_wait. rewrite Hw. rewrite (gate_reads_last l t Hl). reflexivity. }
  split; intros Ht; unfold _auth; rewrite Hgate.
  - rewrite bool_decide_eq_true_2 by exact Ht. reflexivity.
  - rewrite bool_decide_eq_false_2 by lia.
    destruct (receive_bytes (client_frame env)) as [b|e].
    + destruct (bool_decide (b ≠ md5 (token env))).
      * destruct (retry_not_before CONFIG_auth c (now_record env) w); eauto.
      * destruct (auth_seconds CONFIG_auth "admin_auth_timeout"); eauto.
    + destruct e; eauto.
Qed.

(** *** Failed attempts *)

(** With an attribute lookup that resolves the three names read on the
    failure path, a failed attempt sends the failure reply and appends
    [now + fail_timeout], or [now + fail_lock_time] once the record
    holds [max_fail_attempts] entries. *)
Lemma auth_failure_with_resolving_config CONFIG_auth (c : conn) (data : json)
    (env : auth_env) (w : world) (b : bytes) (ft flt mfa : Z) :
  CONFIG_auth "fail_timeout" = Ok (Config.CvNum ft) ->
  CONFIG_auth "fail_lock_time" = Ok (Config.CvNum flt) ->
  CONFIG_auth "max_fail_attempts" = Ok (Config.CvNum mfa) ->
  0 < mfa ->
  must_wait c (now_gate env) w = Ok false ->
  client_frame env = InBytes b ->
  b <> md5 (token env) ->
  let prior := default [] (waitlist w !! c) in
  let delay := if bool_decide (mfa <= Z.of_nat (length prior)) then flt else ft in
  _auth md5 encrypt CONFIG_auth c data env w =
    ([SendBytes (encrypt (token env)); SendJson auth_failed_reply], Ok tt,
     set_waitlist <[c := (prior ++ [now_record env + delay])%list]> w)
  /\ admins (set_waitlist <[c := (prior ++ [now_record env + delay])%list]> w) = admins w.
Proof.
  intros Hft Hflt Hmfa Hpos Hgate Hframe Hne. cbv zeta.
  split; [| reflexivity].
  unfold _auth. rewrite Hgate, Hframe. cbn [receive_bytes].
  rewrite bool_decide_eq_true_2 by exact Hne.
  unfold retry_not_before, auth_seconds.
  destruct (waitlist w !! c) as [l|] eqn:Hw; cbn [default]; unfold id.
  - rewrite Hmfa. cbn [Config.as_number res_bind].
    destruct (bool_decide (mfa <= Z.of_nat (length l))).
    + rewrite Hflt. reflexivity.
    + rewrite Hft. reflexivity.
  - rewrite Hft. cbn [Config.as_number res_bind length].
    rewrite bool_decide_eq_false_2 by (simpl; lia). reflexivity.
Qed.

(** [CfAuth] has no attribute [fail_timeout]. *)
Lemma CfAuth_no_fail_timeout (cfg : Config.CfAuth) :
  Config.getattr cfg "fail_timeout" = Raise AttributeError.
Proof. reflexivity. Qed.

(** C3.  With [CONFIG.auth] a [CfAuth] object, a failed attempt of a
    connection that has no failure record sends the challenge and the
    failure reply and then raises [AttributeError] on reading
    [CONFIG.auth.fail_timeout]: nothing is appended to the failure
    record and the exception leaves the handler. *)
Theorem auth_failure_attribute_error (cfg : Config.CfAuth) (c : conn)
    (data : json) (env : auth_env) (w : world) (b : bytes) :
  waitlist w !! c = None ->
  client_frame env = InBytes b ->
  b <> md5 (token env) ->
  _auth md5 encrypt (Config.getattr cfg) c data env w =
    ([SendBytes (encrypt (token env)); SendJson auth_failed_reply],
     Raise AttributeError, w).
Proof.
  intros Hw Hframe Hne.
  unfold _auth, must_wait. rewrite Hw, Hframe. cbn [receive_bytes].
  rewrite bool_decide_eq_true_2 by exact Hne.
  unfold retry_not_before. rewrite Hw. reflexivity.
Qed.

(** *** Logoff *)

Lemma logoff_not_authenticated (c : conn) (data : json) (w : world) :
  admins w !! c = None ->
  _logoff c data w = ([SendJson not_authenticated_reply], Ok tt, w).
Proof. intros Ha. unfold _logoff. rewrite Ha. reflexivity. Qed.

Lemma logoff_with_failure_record (c : conn) (data : json) (w : world) (e : Z) (l : list Z) :
  admins w !! c = Some e ->
  waitlist w !! c = Some l ->
  _logoff c data w =
    ([SendJson (success_reply "logoff")], Ok tt,
     set_waitlist (delete c) (set_admins (delete c) w)).
Proof.
  intros Ha Hw. unfold _logoff. rewrite Ha. cbn [set_admins waitlist]. rewrite Hw.
  reflexivity.
Qed.

Lemma logoff_missing_record_raises (c : conn) (data : json) (w : world) (e : Z) :
  admins w !! c = Some e ->
  waitlist w !! c = None ->
  _logoff c data w = ([], Raise KeyError, set_admins (delete c) w).
Proof.
  intros Ha Hw. unfold _logoff. rewrite Ha. cbn [set_admins waitlist]. rewrite Hw.
  reflexivity.
Qed.

(** C5.  For an authenticated connection without a failure record,
    [_logoff] removes the entry of [admins] and then raises [KeyError]
    at [del waitlist[self.connection]]: no reply is sent, the exception
    leaves the handler, and the connection is no longer in [admins]. *)
Theorem logoff_without_failure_record (c : conn) (data : json) (w : world) (e : Z) :
  admins w !! c = Some e ->
  waitlist w !! c = None ->
  _logoff c data w = ([], Raise KeyError, set_admins (delete c) w) /\
  admins (set_admins (delete c) w) !! c = None.
Proof.
  intros Ha Hw. split.
  - unfold _logoff. destruct (admins w !! c) as [e'|]; [| discriminate].
    cbn [set_admins waitlist]. destruct (waitlist w !! c); [discriminate | reflexivity].
  - cbn [set_admins admins]. apply lookup_delete_eq.
Qed.

Lemma success_is_not_the_error :
  [SendJson (success_reply "logoff")] <> [SendJson not_authenticated_reply].
Proof.
  intros Heq.
  apply (f_equal (fun o => match o with
                           | [SendJson (JObj m)] => m !! "error"
                           | _ => None
                           end)) in Heq.
  vm_compute in Heq. discriminate.
Qed.

(** C4.  [_logoff] never reads the expiry that [_auth] stored: a
    connection whose entry of [admins] expired before [now] is not
    answered with "Not authenticated." but handled as authenticated; its
    entry is removed, and when the connection has a failure record that
    is removed too and the logoff success frame is sent. *)
Theorem logoff_ignores_expiry (c : conn) (data : json) (w : world) (e now : Z) :
  admins w !! c = Some e ->
  e < now ->
  (_logoff c data w).1.1 <> [SendJson not_authenticated_reply] /\
  admins (_logoff c data w).2 !! c = None /\
  (forall l, waitlist w !! c = Some l ->
     _logoff c data w =
       ([SendJson (success_reply "logoff")], Ok tt,
        set_waitlist (delete c) (set_admins (delete c) w))).
Proof.
  intros Ha _. repeat split.
  - destruct (waitlist w !! c) as [l|] eqn:Hw.
    + rewrite (logoff_with_failure_record c data w e l Ha Hw). cbn [fst].
      exact success_is_not_the_error.
    + rewrite (logoff_missing_record_raises c data w e Ha Hw). discriminate.
  - destruct (waitlist w !! c) as [l|] eqn:Hw.
    + rewrite (logoff_with_failure_record c data w e l Ha Hw). cbn.
      apply lookup_delete_eq.
    + rewrite (logoff_missing_record_raises c data w e Ha Hw). cbn.
      apply lookup_delete_eq.
  - intros l Hw. exact (logoff_with_failure_record c data w e l Ha Hw).
Qed.

End WithCollaborators.

(** *** The theorems at sample states *)

(** Record [5; 100] read at time 50: the first timestamp has passed, the
    last one has not, and the client must wait. *)
Lemma auth_gate_consults_last_witness :
  waitlist w_waiting !! 1%positive = Some [5; 100] /\
  last [5; 100] = Some 100 /\
  (now_gate env_right < 100 ->
     _auth md5_0 encrypt_0 (Config.getattr cfg0) 1%positive (msg "auth") env_right w_waiting
       = ([SendJson wait_reply], Ok tt, w_waiting)) /\
  (100 <= now_gate env_right ->
     exists out r w',
       _auth md5_0 encrypt_0 (Config.getattr cfg0) 1%positive (msg "auth") env_right w_waiting
         = (SendBytes (encrypt_0 (token env_right)) :: out, r, w')).
Proof.
  assert (Hw : waitlist w_waiting !! 1%positive = Some [5; 100]) by reflexivity.
  assert (Hl : last [5; 100] = Some 100) by reflexivity.
  split; [exact Hw |]. split; [exact Hl |].
  exact (auth_gate_consults_last md5_0 encrypt_0 (Config.getattr cfg0) 1%positive
           (msg "auth") env_right w_waiting [5; 100] 100 Hw Hl).
Defined.

(** The same record read the other way round would let the client in:
    with [100; 5] the last timestamp has passed at time 50 and the
    challenge goes out. *)
Example auth_gate_first_in_future_last_passed :
  exists out r w',
    _auth md5_0 encrypt_0 (Config.getattr cfg0) 1%positive (msg "auth") env_right
      {| admins := ∅; waitlist := {[ 1%positive := [100; 5] ]}; database := d_empty |}
    = (SendBytes (encrypt_0 token_0) :: out, r, w').
Proof. eexists _, _, _. vm_compute. reflexivity. Qed.

Lemma auth_failure_attribute_error_witness :
  waitlist w_fresh !! 1%positive = None /\
  client_frame env_wrong = InBytes token_0 /\
  token_0 <> md5_0 (token env_wrong) /\
  _auth md5_0 encrypt_0 (Config.getattr cfg0) 1%positive (msg "auth") env_wrong w_fresh
    = ([SendBytes (encrypt_0 (token env_wrong)); SendJson auth_failed_reply],
       Raise AttributeError, w_fresh).
Proof.
  assert (Hw : waitlist w_fresh !! 1%positive = None) by reflexivity.
  assert (Hf : client_frame env_wrong = InBytes token_0) by reflexivity.
  assert (Hne : token_0 <> md5_0 (token env_wrong)) by (vm_compute; discriminate).
  split; [exact Hw |]. split; [exact Hf |]. split; [exact Hne |].
  exact (auth_failure_attribute_error md5_0 encrypt_0 cfg0 1%positive (msg "auth")
           env_wrong w_fresh token_0 Hw Hf Hne).
Defined.

Lemma logoff_without_failure_record_witness :
  admins w_clean_admin !! 1%positive = Some 500 /\
  waitlist w_clean_admin !! 1%positive = None /\
  (_logoff 1%positive (msg "logoff") w_clean_admin
     = ([], Raise KeyError, set_admins (delete 1%positive) w_clean_admin) /\
   admins (set_admins (delete 1%positive) w_clean_admin) !! 1%positive = None).
Proof.
  assert (Ha : admins w_clean_admin !! 1%positive = Some 500) by reflexivity.
  assert (Hw : waitlist w_clean_admin !! 1%positive = None) by reflexivity.
  split; [exact Ha |]. split; [exact Hw |].
  exact (logoff_without_failure_record 1%positive (msg "logoff") w_clean_admin 500 Ha Hw).
Defined.

(** Connection 1, never failed, is recorded as authenticated until time
    500; at time 1000 [_logoff] does not answer "Not authenticated.". *)
Lemma logoff_ignores_expiry_witness :
  admins w_clean_admin !! 1%positive = Some 500 /\
  500 < 1000 /\
  (_logoff 1%positive (msg "logoff") w_clean_admin).1.1
    <> [SendJson not_authenticated_reply] /\
  admins (_logoff 1%positive (msg "logoff") w_clean_admin).2 !! 1%positive = None /\
  (forall l, waitlist w_clean_admin !! 1%positive = Some l ->
     _logoff 1%positive (msg "logoff") w_clean_admin =
       ([SendJson (success_reply "logoff")], Ok tt,
        set_waitlist (delete 1%positive) (set_admins (delete 1%positive) w_clean_admin))).
Proof.
  assert (Ha : admins w_clean_admin !! 1%positive = Some 500) by reflexivity.
  assert (Hlt : 500 < 1000) by lia.
  split; [exact Ha |]. split; [exact Hlt |].
  exact (logoff_ignores_expiry 1%positive (msg "logoff") w_clean_admin 500 1000 Ha Hlt).
Defined.

(** The whole run: connection 1 passes the challenge at time 50 and is
    recorded until 950; a logoff sent at any later time, long after 950
    too, finds the entry, removes it and raises [KeyError]; no frame is
    sent, in particular not "Not authenticated.". *)
Example logoff_long_after_expiry :
  let w1 := (_auth md5_0 encrypt_0 (Config.getattr cfg0) 1%positive (msg "auth")
                   env_right w_fresh).2 in
  admins w1 !! 1%positive = Some 950 /\
  _logoff 1%positive (msg "logoff") w1 = ([], Raise KeyError, set_admins (delete 1%positive) w1).
Proof. split; reflexivity. Qed.

End AdminProps.

(** ** The shared maps over the life of connections *)

Module SystemProps.

Import Admin System Samples Samples2.

Lemma extends_refl (w : world) : extends w w.
Proof.
  split; [tauto |]. intros c l Hl. exists []. by rewrite app_nil_r.
Qed.

Lemma extends_trans (w1 w2 w3 : world) :
  extends w1 w2 -> extends w2 w3 -> extends w1 w3.
Proof.
  intros [Ha1 Hw1] [Ha2 Hw2]. split.
  - intros c H. apply Ha2, Ha1, H.
  - intros c l Hl.
    destruct (Hw1 c l Hl) as [l1 H1]. destruct (Hw2 c _ H1) as [l2 H2].
    exists (l1 ++ l2)%list. by rewrite app_assoc.
Qed.

(** States that differ only in the database are related. *)
Lemma extends_set_database (w : world) (d : Db.database) : extends w (set_database d w).
Proof.
  split; [tauto |]. intros c l Hl. exists []. by rewrite app_nil_r.
Qed.

Lemma extends_set_admins (w : world) (c : conn) (t : Z) :
  extends w (set_admins <[c := t]> w).
Proof.
  split.
  - intros c' H. cbn [set_admins admins].
    destruct (decide (c = c')) as [->|Hne].
    + rewrite lookup_insert_eq. eauto.
    + by rewrite lookup_insert_ne.
  - intros c' l Hl. exists []. by rewrite app_nil_r.
Qed.

Section WithCollaborators.

Variable md5 : bytes -> bytes.
Variable encrypt : bytes -> bytes.
Variable CONFIG_auth : string -> res Config.cfg_value.
Variable GetUsersInput : json -> option (Z * Z).
Variable DeleteUserInput : json -> option Db.UUID.
Variable public_user : Db.user_row -> json.
Variable UsersWorker_handle_message : json -> world -> list outbound * res unit * world.

(** The record written after a failure is the old one with one more
    timestamp at its end. *)
Lemma retry_not_before_appends (c : conn) (now : Z) (w : world) (l l' : list Z) :
  waitlist w !! c = Some l ->
  retry_not_before CONFIG_auth c now w = Ok l' ->
  exists t, l' = (l ++ [t])%list.
Proof.
  intros Hw. unfold retry_not_before. rewrite Hw.
  destruct (auth_seconds CONFIG_auth "max_fail_attempts") as [m|]; [| discriminate].
  cbn [res_bind].
  destruct (bool_decide (m <= Z.of_nat (length l))).
  - destruct (auth_seconds CONFIG_auth "fail_lock_time") as [s|]; [| discriminate].
    intros [= <-]. eauto.
  - destruct (auth_seconds CONFIG_auth "fail_timeout") as [s|]; [| discriminate].
    intros [= <-]. eauto.
Qed.

Lemma auth_extends (c : conn) (data : json) (env : auth_env) (w : world) :
  extends w (_auth md5 encrypt CONFIG_auth c data env w).2.
Proof.
  unfold _auth.
  destruct (must_wait c (now_gate env) w) as [[|]|]; try apply extends_refl.
  destruct (receive_bytes (client_frame env)) as [b|e].
  2: { destruct e; apply extends_refl. }
  destruct (bool_decide (b ≠ md5 (token env))).
  - destruct (retry_not_before CONFIG_auth c (now_record env) w) as [l'|] eqn:Hr;
      [| apply extends_refl].
    cbn [snd]. split; [tauto |].
    intros c' l Hl. cbn [set_waitlist waitlist].
    destruct (decide (c = c')) as [->|Hne].
    + rewrite lookup_insert_eq.
      destruct (retry_not_before_appends c' _ w l l' Hl Hr) as [t ->]. eauto.
    + rewrite lookup_insert_ne by exact Hne. exists []. by rewrite app_nil_r.
  - destruct (auth_seconds CONFIG_auth "admin_auth_timeout") as [s|];
      [| apply extends_refl].
    apply extends_set_admins.
Qed.

Lemma get_users_same (c : conn) (data : json) (w : world) :
  (_get_users GetUsersInput public_user c data w).2 = w.
Proof. unfold _get_users. destruct (GetUsersInput data) as [[page size]|]; reflexivity. Qed.

Lemma delete_user_extends (c : conn) (data : json) (w : world) :
  extends w (_delete_user DeleteUserInput c data w).2.
Proof.
  unfold _delete_user. destruct (DeleteUserInput data) as [id|]; [| apply extends_refl].
  destruct (Db.delete (database w) id) as [[u|e] d].
  - apply extends_set_database.
  - destruct e; first [apply extends_refl | apply extends_set_database].
Qed.

(** Every message other than [logoff] keeps what the two maps hold. *)
Lemma handle_message_extends (c : conn) (data : json) (env : auth_env) (w : world) :
  is_logoff (EvAdmin c data env) = false ->
  extends w (handle_message md5 encrypt CONFIG_auth GetUsersInput DeleteUserInput
                            public_user c data env w).2.
Proof.
  intros Hnl. unfold handle_message, dict_get.
  destruct data as [| | | | |m]; try apply extends_refl.
  cbn [is_logoff] in Hnl.
  destruct (m !! "action") as [[| | |a| |]|]; cbn [default]; unfold id;
    try apply extends_refl.
  destruct (bool_decide (a = "auth")); [apply auth_extends |].
  rewrite Hnl.
  destruct (bool_decide (a = "get_users")).
  { rewrite get_users_same. apply extends_refl. }
  destruct (bool_decide (a = "get_user")); [apply extends_refl |].
  destruct (bool_decide (a = "delete_user")); [apply delete_user_extends |].
  apply extends_refl.
Qed.

(** The disconnect branch of the receive loop leaves the state alone. *)
Lemma step_disconnect (c : conn) (w : world) :
  step md5 encrypt CONFIG_auth GetUsersInput DeleteUserInput public_user
       UsersWorker_handle_message w (EvDisconnect c) = w.
Proof. reflexivity. Qed.

Lemma step_extends (w : world) (ev : event) :
  is_logoff ev = false ->
  extends w (step md5 encrypt CONFIG_auth GetUsersInput DeleteUserInput public_user
                  UsersWorker_handle_message w ev).
Proof.
  destruct ev as [c data env|c]; intros Hnl.
  - apply handle_message_extends, Hnl.
  - rewrite step_disconnect. apply extends_refl.
Qed.

Lemma extends_keeps (c : conn) (w w' : world) : extends w w' -> keeps c w w'.
Proof. intros [Ha Hw]. split; [apply Ha | apply Hw]. Qed.

Lemma keeps_refl (c : conn) (w : world) : keeps c w w.
Proof. apply extends_keeps, extends_refl. Qed.

Lemma keeps_trans (c : conn) (w1 w2 w3 : world) :
  keeps c w1 w2 -> keeps c w2 w3 -> keeps c w1 w3.
Proof.
  intros [Ha1 Hw1] [Ha2 Hw2]. split.
  - intros H. apply Ha2, Ha1, H.
  - intros l Hl.
    destruct (Hw1 l Hl) as [l1 H1]. destruct (Hw2 _ H1) as [l2 H2].
    exists (l1 ++ l2)%list. by rewrite app_assoc.
Qed.

(** The logoff of one connection leaves the entries of every other
    connection in place. *)
Lemma logoff_keeps_other (c c' : conn) (data : json) (w : world) :
  c' <> c -> keeps c w (_logoff c' data w).2.
Proof.
  intros Hne. unfold _logoff.
  destruct (admins w !! c') as [e|]; [| apply keeps_refl].
  cbn [set_admins waitlist].
  destruct (waitlist w !! c') as [l0|]; cbn [snd]; split;
    cbn [set_waitlist set_admins admins waitlist].
  - rewrite lookup_delete_ne by exact Hne. tauto.
  - intros l Hl. rewrite lookup_delete_ne by exact Hne. exists []. by rewrite app_nil_r.
  - rewrite lookup_delete_ne by exact Hne. tauto.
  - intros l Hl. exists []. by rewrite app_nil_r.
Qed.

(** A [logoff] message is handled by [_logoff]. *)
Lemma handle_message_logoff (c : conn) (data : json) (env : auth_env) (w : world) :
  is_logoff (EvAdmin c data env) = true ->
  handle_message md5 encrypt CONFIG_auth GetUsersInput DeleteUserInput public_user
                 c data env w = _logoff c data w.
Proof.
  unfold is_logoff, handle_message, dict_get.
  destruct data as [| | | | |m]; try discriminate.
  destruct (m !! "action") as [[| | |a| |]|]; try discriminate.
  cbn [default]. unfold id. intros Ha. apply bool_decide_eq_true_1 in Ha. subst a.
  reflexivity.
Qed.

Lemma step_keeps (c : conn) (w : world) (ev : event) :
  is_logoff_of c ev = false ->
  keeps c w (step md5 encrypt CONFIG_auth GetUsersInput DeleteUserInput public_user
                  UsersWorker_handle_message w ev).
Proof.
  intros Hnl. destruct (is_logoff ev) eqn:El.
  - destruct ev as [c' data env|c']; [| discriminate].
    cbn [is_logoff_of] in Hnl. rewrite El, andb_true_r in Hnl.
    apply bool_decide_eq_false_1 in Hnl.
    cbn [step]. rewrite (handle_message_logoff c' data env w El).
    apply logoff_keeps_other, Hnl.
  - apply extends_keeps, step_extends, El.
Qed.

(** Without any [logoff] message at all, nothing is ever removed. *)
Lemma no_logoff_extends (w : world) (evs : list event) :
  Forall (fun ev => is_logoff ev = false) evs ->
  extends w (exec md5 encrypt CONFIG_auth GetUsersInput DeleteUserInput
                  public_user UsersWorker_handle_message w evs).
Proof.
  intros Hall. revert w. induction Hall as [|ev evs Hev _ IH]; intros w.
  - apply extends_refl.
  - cbn [exec foldl]. eapply extends_trans; [apply step_extends, Hev |]. apply IH.
Qed.

(** C10.  Over any sequence of admin messages and disconnects, of any
    connections, in which connection [c] itself sends no [logoff]
    message, the entry of [c] in [admins] stays and its failure record
    stays, extended at most at its end: neither a disconnect of [c] nor
    anything another connection does, its logoff included, removes them.
    A disconnect changes nothing at all.  And when no connection logs
    off, no entry of any connection is removed. *)
Theorem shared_maps_shrink_only_by_logoff (w : world) (evs : list event) (c : conn) :
  Forall (fun ev => is_logoff_of c ev = false) evs ->
  let run_events := exec md5 encrypt CONFIG_auth GetUsersInput DeleteUserInput
                         public_user UsersWorker_handle_message in
  keeps c w (run_events w evs) /\
  (forall c', run_events w (evs ++ [EvDisconnect c'])%list = run_events w evs) /\
  (Forall (fun ev => is_logoff ev = false) evs -> extends w (run_events w evs)).
Proof.
  intros Hall. cbv zeta. split; [| split].
  - revert w. induction Hall as [|ev evs Hev _ IH]; intros w.
    + apply keeps_refl.
    + cbn [exec foldl]. eapply keeps_trans; [apply step_keeps, Hev |].
      apply IH.
  - intros c'. unfold exec. rewrite foldl_app. reflexivity.
  - apply no_logoff_extends.
Qed.

End WithCollaborators.

Lemma shared_maps_shrink_only_by_logoff_witness :
  Forall (fun ev => is_logoff_of 1%positive ev = false) other_logs_off /\
  (let run_events := exec md5_0 encrypt_0 (Config.getattr cfg0) (fun _ => None)
                          (fun _ => None) (fun _ => JNull) (fun _ w => ([], Ok tt, w)) in
   keeps 1%positive w_two (run_events w_two other_logs_off) /\
   (forall c', run_events w_two (other_logs_off ++ [EvDisconnect c'])%list
               = run_events w_two other_logs_off) /\
   (Forall (fun ev => is_logoff ev = false) other_logs_off ->
    extends w_two (run_events w_two other_logs_off))).
Proof.
  assert (Hall : Forall (fun ev => is_logoff_of 1%positive ev = false) other_logs_off).
  { repeat constructor. }
  split; [exact Hall |].
  exact (shared_maps_shrink_only_by_logoff md5_0 encrypt_0 (Config.getattr cfg0)
           (fun _ => None) (fun _ => None) (fun _ => JNull) (fun _ w => ([], Ok tt, w))
           w_two other_logs_off 1%positive Hall).
Defined.

(** In that run connection 2, which logged off, is gone from both maps,
    while connection 1, which only disconnected, is still recorded as
    authenticated. *)
Example logoff_of_another_connection :
  let w' := exec md5_0 encrypt_0 (Config.getattr cfg0) (fun _ => None) (fun _ => None)
                 (fun _ => JNull) (fun _ w => ([], Ok tt, w)) w_two other_logs_off in
  admins w' !! 1%positive = Some 950 /\
  admins w' !! 2%positive = None /\ waitlist w' !! 2%positive = None.
Proof. vm_compute. repeat split. Qed.

(** After a successful challenge at time 50 and a disconnect, connection 1
    is still recorded as authenticated until 50 + [admin_auth_timeout]. *)
Example authenticated_entry_survives_disconnect :
  admins (exec md5_0 encrypt_0 (Config.getattr cfg0) (fun _ => None) (fun _ => None)
               (fun _ => JNull) (fun _ w => ([], Ok tt, w)) w_fresh auth_then_disconnect)
    !! 1%positive = Some 950.
Proof. vm_compute. reflexivity. Qed.

End SystemProps.

(* ===================================================================== *)
(** * Further properties *)
(* ===================================================================== *)

(** ** Field validation, routing and the receive loop *)

Module FramingMore.

Import Framing Samples2.

(** On a dict the three tests of [verify_field] collapse to one lookup. *)
Lemma verify_field_dict (m : gmap string json) (field : string) (t : field_type) :
  verify_field (JObj m) field t =
  Ok (match m !! field with Some v => isinstance v t | None => false end).
Proof.
  unfold verify_field, py_contains, py_getitem. cbn [res_bind].
  destruct (m !! field) as [v|] eqn:E.
  - rewrite bool_decide_eq_true_2 by eauto. cbn [negb res_bind].
    destruct v, t; reflexivity.
  - rewrite bool_decide_eq_false_2 by (intros [? ?]; discriminate). reflexivity.
Qed.

(** X1.  On a dict [verify_field] never raises, and it answers [True]
    exactly when the key is present with a value that is not [None] and
    is an instance of the requested type. *)
Theorem verify_field_dict_accepts (m : gmap string json) (field : string) (t : field_type) :
  exists b, verify_field (JObj m) field t = Ok b /\
    (b = true <-> exists v, m !! field = Some v /\ v <> JNull /\ isinstance v t = true).
Proof.
  eexists. split; [apply verify_field_dict |].
  destruct (m !! field) as [v|]; split.
  - intros Hi. exists v. repeat split; [| exact Hi]. intros ->. destruct t; discriminate.
  - intros (v' & [= <-] & _ & Hi). exact Hi.
  - discriminate.
  - intros (v' & Hv & _). discriminate.
Qed.

(** X2.  A value that is not a dict never passes [verify_field]: the
    result is [False] or a [TypeError], whatever the field and type. *)
Theorem verify_field_rejects_non_dict (data : json) (field : string) (t : field_type) :
  (forall m, data <> JObj m) ->
  verify_field data field t <> Ok true.
Proof.
  intros Hnd. unfold verify_field, py_contains, py_getitem.
  destruct data as [| | |s|l|m]; cbn [res_bind]; try discriminate.
  - destruct (String.index 0 field s); cbn [negb res_bind]; discriminate.
  - destruct (existsb (is_str_eq field) l); cbn [negb res_bind]; discriminate.
  - exfalso. exact (Hnd m eq_refl).
Qed.

Lemma verify_field_rejects_non_dict_witness :
  (forall m, JArr [JStr "target"] <> JObj m) /\
  verify_field (JArr [JStr "target"]) "target" T_str <> Ok true.
Proof.
  assert (H : forall m, JArr [JStr "target"] <> JObj m) by (intros m; discriminate).
  split; [exact H |].
  exact (verify_field_rejects_non_dict (JArr [JStr "target"]) "target" T_str H).
Defined.

Section WithHandler.

Context {W : Type}.
Variable h : json -> W -> list outbound * res unit * W.

Lemma direct_message_cases (target : string) (data : json) (w : W) :
  direct_message h target data w =
  if bool_decide (target = "users") then h data w
  else ([SendJson (error_reply "Target not found.")], Ok tt, w).
Proof.
  unfold direct_message, workers.
  destruct (bool_decide (target = "users")) eqn:E.
  - apply bool_decide_eq_true_1 in E. subst target.
    rewrite lookup_singleton_eq. reflexivity.
  - apply bool_decide_eq_false_1 in E.
    rewrite lookup_singleton_ne by congruence. reflexivity.
Qed.

(** X3.  "users" is the only routable target: [direct_message] hands the
    inner object to the users handler for that target and answers every
    other target with the target-not-found error, leaving the state
    alone. *)
Theorem direct_message_routes (target : string) (data : json) (w : W) :
  direct_message h target data w =
  if bool_decide (target = "users") then h data w
  else ([SendJson (error_reply "Target not found.")], Ok tt, w).
Proof. exact (direct_message_cases target data w). Qed.

(** X4.  Frames that follow a disconnect are never looked at, however
    many frames were served before it. *)
Theorem run_stops_at_disconnect (pre rest : list inbound) (w : W) :
  run h (pre ++ InDisconnect :: rest)%list w = run h (pre ++ [InDisconnect])%list w.
Proof.
  revert w. induction pre as [|f pre IH]; intros w; [reflexivity |].
  cbn [app run].
  destruct (run_body h f w) as [[out [| |e]] w1]; [| reflexivity | reflexivity].
  rewrite IH. reflexivity.
Qed.

(** The envelope checks on an object whose two levels are well formed. *)
Lemma run_body_envelope (m inner d : gmap string json) (target action : string) (w : W) :
  m !! "target" = Some (JStr target) ->
  m !! "data" = Some (JObj inner) ->
  inner !! "action" = Some (JStr action) ->
  inner !! "data" = Some (JObj d) ->
  run_body h (InTextJson (JObj m)) w =
  if bool_decide (target = "ping")
  then ([SendJson (obj [("target", JStr "pong")])], StepContinue, w)
  else match direct_message h target (JObj inner) w with
       | (out, Ok _, w') => (out, StepContinue, w')
       | (out, Raise e, w') => (out, StepRaise e, w')
       end.
Proof.
  intros Ht Hd Ha Hdd. unfold run_body. cbn [receive_json is_empty_dict].
  rewrite bool_decide_eq_false_2.
  2: { intros Hs. apply map_size_empty_iff in Hs. subst m.
       rewrite lookup_empty in Ht. discriminate. }
  rewrite !verify_field_dict. rewrite Ht, Hd. cbn [isinstance py_getitem].
  rewrite Ht, Hd.
  destruct (bool_decide (target = "ping")); [reflexivity |].
  rewrite !verify_field_dict. rewrite Ha, Hdd. reflexivity.
Qed.

(** X5.  A well-formed envelope addressed to "users" reaches the users
    handler with the inner object as it was sent; when the handler
    returns, the loop goes on with the remaining frames from the state
    the handler left, and the handler's frames come first. *)
Theorem run_dispatches_users_envelope (m inner d : gmap string json) (action : string)
    (rest : list inbound) (w w' : W) (out : list outbound) :
  m !! "target" = Some (JStr "users") ->
  m !! "data" = Some (JObj inner) ->
  inner !! "action" = Some (JStr action) ->
  inner !! "data" = Some (JObj d) ->
  h (JObj inner) w = (out, Ok tt, w') ->
  run h (InTextJson (JObj m) :: rest) w =
  let '(out', e, w'') := run h rest w' in ((out ++ out')%list, e, w'').
Proof.
  intros Ht Hd Ha Hdd Hh. cbn [run].
  rewrite (run_body_envelope m inner d "users" action w Ht Hd Ha Hdd).
  rewrite bool_decide_eq_false_2 by discriminate.
  rewrite direct_message_cases, bool_decide_eq_true_2 by reflexivity.
  rewrite Hh. reflexivity.
Qed.

(** X6.  An exception raised by the users handler is not caught by the
    loop: [run] ends with it, after the frames the handler had sent, and
    the remaining frames are not served. *)
Theorem run_handler_exception_escapes (m inner d : gmap string json) (action : string)
    (rest : list inbound) (w w' : W) (out : list outbound) (e : exn) :
  m !! "target" = Some (JStr "users") ->
  m !! "data" = Some (JObj inner) ->
  inner !! "action" = Some (JStr action) ->
  inner !! "data" = Some (JObj d) ->
  h (JObj inner) w = (out, Raise e, w') ->
  run h (InTextJson (JObj m) :: rest) w = (out, Crashed e, w').
Proof.
  intros Ht Hd Ha Hdd Hh. cbn [run].
  rewrite (run_body_envelope m inner d "users" action w Ht Hd Ha Hdd).
  rewrite bool_decide_eq_false_2 by discriminate.
  unfold direct_message, workers. rewrite lookup_singleton_eq.
  cbn [class_handle_message]. rewrite Hh. reflexivity.
Qed.

(** X7.  A ping whose [data] field is an object, whatever it holds and
    whatever other fields the frame has, is answered with the pong frame
    without any handler being involved; the loop goes on. *)
Theorem run_ping_any_data (m d : gmap string json) (rest : list inbound) (w : W) :
  m !! "target" = Some (JStr "ping") ->
  m !! "data" = Some (JObj d) ->
  run h (InTextJson (JObj m) :: rest) w =
  let '(out, e, w') := run h rest w in
  (SendJson (obj [("target", JStr "pong")]) :: out, e, w').
Proof.
  intros Ht Hd. cbn [run]. unfold run_body. cbn [receive_json is_empty_dict].
  rewrite bool_decide_eq_false_2.
  2: { intros Hs. apply map_size_empty_iff in Hs. subst m.
       rewrite lookup_empty in Ht. discriminate. }
  rewrite !verify_field_dict. rewrite Ht, Hd. cbn [isinstance py_getitem].
  rewrite Ht, Hd. rewrite bool_decide_eq_true_2 by reflexivity.
  destruct (run h rest w) as [[out e] w']. reflexivity.
Qed.

(** One pass of the loop body on a binary frame or a decoded object
    goes on to the next frame when the handler does not raise. *)
Lemma run_body_object_continues (f : inbound) (w : W) :
  (forall data w0, exists out w1, h data w0 = (out, Ok tt, w1)) ->
  match f with
  | InBytes _ => True
  | InTextJson (JObj _) => True
  | _ => False
  end ->
  (run_body h f w).1.2 = StepContinue.
Proof.
  intros Hh Hf.
  destruct f as [ |b|s|v]; try contradiction; [reflexivity |].
  destruct v as [| | | | |m]; try contradiction.
  unfold run_body. cbn [receive_json is_empty_dict].
  destruct (bool_decide (size m = 0%nat)); [reflexivity |].
  rewrite !verify_field_dict.
  destruct (m !! "target") as [vt|] eqn:Ht; [| reflexivity].
  destruct (isinstance vt T_str) eqn:Hit; [| reflexivity].
  destruct vt; try discriminate.
  destruct (m !! "data") as [vd|] eqn:Hd; [| reflexivity].
  destruct (isinstance vd T_dict) eqn:Hid; [| reflexivity].
  destruct vd as [| | | | |inner]; try discriminate.
  cbn [py_getitem]. rewrite Ht, Hd.
  destruct (bool_decide (s = "ping")); [reflexivity |].
  rewrite !verify_field_dict.
  destruct (inner !! "action") as [va|]; [| reflexivity].
  destruct (isinstance va T_str); [| reflexivity].
  destruct (inner !! "data") as [vdd|]; [| reflexivity].
  destruct (isinstance vdd T_dict); [| reflexivity].
  rewrite direct_message_cases.
  destruct (bool_decide (s = "users")); [| reflexivity].
  destruct (Hh (JObj inner) w) as (out & w1 & ->). reflexivity.
Qed.

(** X8.  As long as the peer sends binary frames and JSON objects, and
    the users handler returns normally, no exception leaves [run] and
    [run] does not return: after every such sequence of frames it is
    waiting for the next frame. *)
Theorem run_objects_never_crash (frames : list inbound) (w : W) :
  (forall data w0, exists out w1, h data w0 = (out, Ok tt, w1)) ->
  Forall (fun f => match f with
                   | InBytes _ => True
                   | InTextJson (JObj _) => True
                   | _ => False
                   end) frames ->
  (run h frames w).1.2 = Listening.
Proof.
  intros Hh Hall. revert w.
  induction Hall as [|f frames Hf _ IH]; intros w; [reflexivity |].
  cbn [run].
  pose proof (run_body_object_continues f w Hh Hf) as Hc.
  destruct (run_body h f w) as [[out st] w1]. cbn [fst snd] in Hc. subst st.
  specialize (IH w1). destruct (run h frames w1) as [[out' e'] w2]. exact IH.
Qed.

End WithHandler.

Lemma run_dispatches_users_envelope_witness :
  envelope_users !! "target" = Some (JStr "users") /\
  envelope_users !! "data" = Some (JObj inner_new) /\
  inner_new !! "action" = Some (JStr "new") /\
  inner_new !! "data" = Some (JObj ∅) /\
  h_echo (JObj inner_new) 0%nat = ([SendJson (JObj inner_new)], Ok tt, 1%nat) /\
  run h_echo (InTextJson (JObj envelope_users) :: [InDisconnect]) 0%nat =
  let '(out', e, w'') := run h_echo [InDisconnect] 1%nat in
  (([SendJson (JObj inner_new)] ++ out')%list, e, w'').
Proof.
  assert (H1 : envelope_users !! "target" = Some (JStr "users")) by reflexivity.
  assert (H2 : envelope_users !! "data" = Some (JObj inner_new)) by reflexivity.
  assert (H3 : inner_new !! "action" = Some (JStr "new")) by reflexivity.
  assert (H4 : inner_new !! "data" = Some (JObj ∅)) by reflexivity.
  assert (H5 : h_echo (JObj inner_new) 0%nat = ([SendJson (JObj inner_new)], Ok tt, 1%nat))
    by reflexivity.
  repeat (split; [assumption |]).
  exact (run_dispatches_users_envelope h_echo envelope_users inner_new ∅ "new"
           [InDisconnect] 0%nat 1%nat [SendJson (JObj inner_new)] H1 H2 H3 H4 H5).
Defined.

Lemma run_handler_exception_escapes_witness :
  envelope_users !! "target" = Some (JStr "users") /\
  envelope_users !! "data" = Some (JObj inner_new) /\
  inner_new !! "action" = Some (JStr "new") /\
  inner_new !! "data" = Some (JObj ∅) /\
  h_raise (JObj inner_new) 0%nat = ([], Raise TypeError, 0%nat) /\
  run h_raise (InTextJson (JObj envelope_users) :: [InTextJson (JObj envelope_ping)]) 0%nat
    = ([], Crashed TypeError, 0%nat).
Proof.
  assert (H1 : envelope_users !! "target" = Some (JStr "users")) by reflexivity.
  assert (H2 : envelope_users !! "data" = Some (JObj inner_new)) by reflexivity.
  assert (H3 : inner_new !! "action" = Some (JStr "new")) by reflexivity.
  assert (H4 : inner_new !! "data" = Some (JObj ∅)) by reflexivity.
  assert (H5 : h_raise (JObj inner_new) 0%nat = ([], Raise TypeError, 0%nat)) by reflexivity.
  repeat (split; [assumption |]).
  exact (run_handler_exception_escapes h_raise envelope_users inner_new ∅ "new"
           [InTextJson (JObj envelope_ping)] 0%nat 0%nat [] TypeError H1 H2 H3 H4 H5).
Defined.

Lemma run_ping_any_data_witness :
  envelope_ping !! "target" = Some (JStr "ping") /\
  envelope_ping !! "data" = Some (JObj inner_new) /\
  run h_raise (InTextJson (JObj envelope_ping) :: [InDisconnect]) 0%nat =
  let '(out, e, w') := run h_raise [InDisconnect] 0%nat in
  (SendJson (obj [("target", JStr "pong")]) :: out, e, w').
Proof.
  assert (H1 : envelope_ping !! "target" = Some (JStr "ping")) by reflexivity.
  assert (H2 : envelope_ping !! "data" = Some (JObj inner_new)) by reflexivity.
  repeat (split; [assumption |]).
  exact (run_ping_any_data h_raise envelope_ping inner_new [InDisconnect] 0%nat H1 H2).
Defined.

Lemma run_objects_never_crash_witness :
  (forall data w0, exists out w1, h_echo data w0 = (out, Ok tt, w1)) /\
  Forall (fun f => match f with
                   | InBytes _ => True
                   | InTextJson (JObj _) => True
                   | _ => False
                   end)
         [InTextJson (JObj envelope_users); InBytes []; InTextJson (JObj ∅)] /\
  (run h_echo [InTextJson (JObj envelope_users); InBytes []; InTextJson (JObj ∅)] 0%nat).1.2
    = Listening.
Proof.
  assert (Hh : forall data w0, exists out w1, h_echo data w0 = (out, Ok tt, w1))
    by (intros data w0; eexists _, _; reflexivity).
  assert (Hall : Forall (fun f => match f with
                   | InBytes _ => True
                   | InTextJson (JObj _) => True
                   | _ => False
                   end)
         [InTextJson (JObj envelope_users); InBytes []; InTextJson (JObj ∅)])
    by (repeat constructor).
  split; [exact Hh |]. split; [exact Hall |].
  exact (run_objects_never_crash h_echo _ 0%nat Hh Hall).
Defined.

End FramingMore.

(** ** The admin handler: success, hang-up, unknown actions, user
       management *)

Module AdminMore.

Import Admin System Samples Samples2.

Lemma users_gone_after_delete (l : list Db.user_row) (id : Db.UUID) :
  filter (fun r => Db.user_id r = id) (filter (fun r => Db.user_id r ≠ id) l) = [].
Proof.
  induction l as [|r l IH]; [reflexivity |].
  destruct (decide (Db.user_id r = id)) as [Heq|Hne].
  - rewrite (filter_cons_False (fun r => Db.user_id r ≠ id)) by tauto. exact IH.
  - rewrite (filter_cons_True (fun r => Db.user_id r ≠ id)) by exact Hne.
    rewrite filter_cons_False by exact Hne. exact IH.
Qed.

Lemma not_authenticated_is_not_success :
  [SendJson not_authenticated_reply] <> [SendJson (success_reply "logoff")].
Proof.
  intros Heq.
  apply (f_equal (fun o => match o with
                           | [SendJson (JObj m)] => m !! "error"
                           | _ => None
                           end)) in Heq.
  vm_compute in Heq. discriminate.
Qed.

Section WithCollaborators.

Variable md5 : bytes -> bytes.
Variable encrypt : bytes -> bytes.
Variable GetUsersInput : json -> option (Z * Z).
Variable DeleteUserInput : json -> option Db.UUID.
Variable public_user : Db.user_row -> json.
Variable UsersWorker_handle_message : json -> world -> list outbound * res unit * world.


(** X10.  When the peer disconnects instead of answering the challenge,
    [_auth] returns normally having sent only the challenge: no error
    frame, no entry in [admins], no failure recorded. *)
Theorem auth_hangup_changes_nothing CONFIG_auth (c : conn) (data : json)
    (env : auth_env) (w : world) :
  must_wait c (now_gate env) w = Ok false ->
  client_frame env = InDisconnect ->
  _auth md5 encrypt CONFIG_auth c data env w
    = ([SendBytes (encrypt (token env))], Ok tt, w).
Proof.
  intros Hgate Hframe. unfold _auth. rewrite Hgate, Hframe. reflexivity.
Qed.

(** X11.  A message whose action is a string other than the five known
    ones is answered with [{"error": "Invalid action."}] and changes
    nothing. *)
Theorem handle_message_unknown_action CONFIG_auth (c : conn) (m : gmap string json)
    (a : string) (env : auth_env) (w : world) :
  m !! "action" = Some (JStr a) ->
  a ∉ ["auth"; "logoff"; "get_users"; "get_user"; "delete_user"] ->
  handle_message md5 encrypt CONFIG_auth GetUsersInput DeleteUserInput public_user
                 c (JObj m) env w
    = ([SendJson (error_reply "Invalid action.")], Ok tt, w).
Proof.
  intros Ha Hnot. unfold handle_message, dict_get. rewrite Ha. cbn [default]. unfold id.
  rewrite !bool_decide_eq_false_2; [reflexivity | | | | |];
    intros ->; apply Hnot; set_solver.
Qed.

(** X12.  [_get_users] does not look at the authentication state: two
    states with the same database give the same reply, whichever
    connection asks, and the state is left unchanged. *)
Theorem get_users_ignores_authentication (c c' : conn) (data : json) (w w' : world) :
  database w = database w' ->
  (_get_users GetUsersInput public_user c data w).1
    = (_get_users GetUsersInput public_user c' data w').1 /\
  (_get_users GetUsersInput public_user c data w).2 = w.
Proof.
  intros Hd. unfold _get_users. rewrite Hd.
  destruct (GetUsersInput data) as [[page size]|]; split; reflexivity.
Qed.

(** The reply of [_get_users] lists at most [page_size] users. *)
Theorem get_users_at_most_page_size (c : conn) (data : json) (w : world)
    (page page_size : Z) :
  GetUsersInput data = Some (page, page_size) ->
  0 <= page_size ->
  exists items,
    (_get_users GetUsersInput public_user c data w).1.1
      = [SendJson (obj [("action", JStr "users"); ("data", JArr items)])] /\
    (Z.of_nat (length items) <= page_size).
Proof.
  intros Hg Hs. unfold _get_users. rewrite Hg. eexists. split; [reflexivity |].
  rewrite length_map. unfold Db.get. rewrite length_take. lia.
Qed.

(** X13.  Deleting a stored user replies with the success frame; asking
    again for the same id replies [{"error": "User does not exist."}]
    and leaves the state as the first deletion left it. *)
Theorem delete_user_twice (c : conn) (data : json) (w : world) (id : Db.UUID) :
  DeleteUserInput data = Some id ->
  Db.id_exists (database w) id = true ->
  let r1 := _delete_user DeleteUserInput c data w in
  let r2 := _delete_user DeleteUserInput c data r1.2 in
  r1.1 = ([SendJson (success_reply "delete_user")], Ok tt) /\
  Db.id_exists (database r1.2) id = false /\
  r2 = ([SendJson (error_reply "User does not exist.")], Ok tt, r1.2).
Proof.
  intros Hin Hex. cbv zeta.
  set (d1 := {| Db.users := filter (fun r => Db.user_id r ≠ id) (Db.users (database w));
                Db.passwords := Db.passwords (database w);
                Db.tokens := Db.tokens (database w);
                Db.verification_codes := Db.verification_codes (database w) |}).
  assert (Hr1 : _delete_user DeleteUserInput c data w
                = ([SendJson (success_reply "delete_user")], Ok tt, set_database d1 w)).
  { unfold _delete_user. rewrite Hin. unfold Db.delete. rewrite Hex. reflexivity. }
  assert (Hgone : Db.id_exists d1 id = false).
  { unfold Db.id_exists, d1. cbn [Db.users].
    rewrite users_gone_after_delete. reflexivity. }
  rewrite Hr1. cbn [fst snd]. split; [reflexivity |]. split; [exact Hgone |].
  unfold _delete_user. rewrite Hin. cbn [database set_database].
  unfold Db.delete. rewrite Hgone. reflexivity.
Qed.

(** One event keeps an empty waitlist empty when [CONFIG.auth] is a
    [CfAuth] object. *)
Lemma step_keeps_waitlist_empty (cfg : Config.CfAuth) (w : world) (ev : event) :
  waitlist w = ∅ ->
  waitlist (step md5 encrypt (Config.getattr cfg) GetUsersInput DeleteUserInput
                 public_user UsersWorker_handle_message w ev) = ∅.
Proof.
  intros Hw. destruct ev as [c data env|c]; [| exact Hw].
  cbn [step]. unfold handle_message, dict_get.
  destruct data as [| | | | |m]; try exact Hw.
  destruct (m !! "action") as [[| | |a| |]|]; cbn [default]; unfold id; try exact Hw.
  destruct (bool_decide (a = "auth")).
  { unfold _auth, must_wait, retry_not_before. rewrite Hw, lookup_empty.
    destruct (receive_bytes (client_frame env)) as [b|e].
    - destruct (bool_decide (b ≠ md5 (token env))); exact Hw.
    - destruct e; exact Hw. }
  destruct (bool_decide (a = "logoff")).
  { unfold _logoff. destruct (admins w !! c); [| exact Hw].
    cbn [set_admins waitlist]. rewrite Hw, lookup_empty. exact Hw. }
  destruct (bool_decide (a = "get_users")).
  { unfold _get_users. destruct (GetUsersInput (JObj m)) as [[page size]|]; exact Hw. }
  destruct (bool_decide (a = "get_user")); [exact Hw |].
  destruct (bool_decide (a = "delete_user")); [| exact Hw].
  unfold _delete_user. destruct (DeleteUserInput (JObj m)) as [id|]; [| exact Hw].
  destruct (Db.delete (database w) id) as [[u|e] d]; [exact Hw |].
  destruct e; exact Hw.
Qed.

(** X14.  With [CONFIG.auth] a [CfAuth] object, a waitlist that is empty
    stays empty through every sequence of admin messages and
    disconnects; hence no [logoff] that follows is ever answered with the
    success frame. *)
Theorem cfauth_logoff_never_succeeds (cfg : Config.CfAuth) (w : world) (evs : list event)
    (c : conn) (data : json) :
  waitlist w = ∅ ->
  let w' := exec md5 encrypt (Config.getattr cfg) GetUsersInput DeleteUserInput
                 public_user UsersWorker_handle_message w evs in
  waitlist w' = ∅ /\
  (_logoff c data w').1.1 <> [SendJson (success_reply "logoff")].
Proof.
  intros Hw. cbv zeta.
  assert (Hinv : waitlist (exec md5 encrypt (Config.getattr cfg) GetUsersInput
                                DeleteUserInput public_user UsersWorker_handle_message
                                w evs) = ∅).
  { revert w Hw. induction evs as [|ev evs IH]; intros w Hw; [exact Hw |].
    cbn [exec foldl]. apply IH, step_keeps_waitlist_empty, Hw. }
  split; [exact Hinv |].
  unfold _logoff.
  destruct (admins _ !! c).
  - cbn [set_admins waitlist]. rewrite Hinv, lookup_empty. discriminate.
  - exact not_authenticated_is_not_success.
Qed.

End WithCollaborators.


Lemma auth_hangup_changes_nothing_witness :
  must_wait 1%positive (now_gate env_hangup) w_fresh = Ok false /\
  client_frame env_hangup = InDisconnect /\
  _auth md5_0 encrypt_0 (Config.getattr cfg0) 1%positive (msg "auth") env_hangup w_fresh
    = ([SendBytes (encrypt_0 (token env_hangup))], Ok tt, w_fresh).
Proof.
  assert (H1 : must_wait 1%positive (now_gate env_hangup) w_fresh = Ok false) by reflexivity.
  assert (H2 : client_frame env_hangup = InDisconnect) by reflexivity.
  split; [exact H1 |]. split; [exact H2 |].
  exact (auth_hangup_changes_nothing md5_0 encrypt_0 (Config.getattr cfg0) 1%positive
           (msg "auth") env_hangup w_fresh H1 H2).
Defined.

Lemma handle_message_unknown_action_witness :
  action_shutdown !! "action" = Some (JStr "shutdown") /\
  ("shutdown" ∉ ["auth"; "logoff"; "get_users"; "get_user"; "delete_user"]) /\
  handle_message md5_0 encrypt_0 (Config.getattr cfg0) get_users_input_0 delete_input_0
                 public_user_0 1%positive (JObj action_shutdown) env_right w_three
    = ([SendJson (error_reply "Invalid action.")], Ok tt, w_three).
Proof.
  assert (H1 : action_shutdown !! "action" = Some (JStr "shutdown")) by reflexivity.
  assert (H2 : "shutdown" ∉ ["auth"; "logoff"; "get_users"; "get_user"; "delete_user"]).
  { intros H. repeat (apply elem_of_cons in H as [H|H]; [discriminate |]).
    by apply elem_of_nil in H. }
  split; [exact H1 |]. split; [exact H2 |].
  exact (handle_message_unknown_action md5_0 encrypt_0 get_users_input_0 delete_input_0
           public_user_0 (Config.getattr cfg0) 1%positive action_shutdown "shutdown"
           env_right w_three H1 H2).
Defined.

Lemma get_users_ignores_authentication_witness :
  database w_three = database w_three_anon /\
  (_get_users get_users_input_0 public_user_0 1%positive (msg "get_users") w_three).1
    = (_get_users get_users_input_0 public_user_0 2%positive (msg "get_users")
                  w_three_anon).1 /\
  (_get_users get_users_input_0 public_user_0 1%positive (msg "get_users") w_three).2
    = w_three.
Proof.
  assert (H1 : database w_three = database w_three_anon) by reflexivity.
  split; [exact H1 |].
  exact (get_users_ignores_authentication get_users_input_0 public_user_0 1%positive
           2%positive (msg "get_users") w_three w_three_anon H1).
Defined.

Lemma get_users_at_most_page_size_witness :
  get_users_input_0 (msg "get_users") = Some (0, 2) /\
  0 <= 2 /\
  exists items,
    (_get_users get_users_input_0 public_user_0 1%positive (msg "get_users") w_three).1.1
      = [SendJson (obj [("action", JStr "users"); ("data", JArr items)])] /\
    (Z.of_nat (length items) <= 2).
Proof.
  assert (H1 : get_users_input_0 (msg "get_users") = Some (0, 2)) by reflexivity.
  assert (H2 : 0 <= 2) by lia.
  split; [exact H1 |]. split; [exact H2 |].
  exact (get_users_at_most_page_size get_users_input_0 public_user_0 1%positive
           (msg "get_users") w_three 0 2 H1 H2).
Defined.

Lemma delete_user_twice_witness :
  delete_input_0 (msg "delete_user") = Some 2%positive /\
  Db.id_exists (database w_three) 2%positive = true /\
  (let r1 := _delete_user delete_input_0 1%positive (msg "delete_user") w_three in
   let r2 := _delete_user delete_input_0 1%positive (msg "delete_user") r1.2 in
   r1.1 = ([SendJson (success_reply "delete_user")], Ok tt) /\
   Db.id_exists (database r1.2) 2%positive = false /\
   r2 = ([SendJson (error_reply "User does not exist.")], Ok tt, r1.2)).
Proof.
  assert (H1 : delete_input_0 (msg "delete_user") = Some 2%positive) by reflexivity.
  assert (H2 : Db.id_exists (database w_three) 2%positive = true) by reflexivity.
  split; [exact H1 |]. split; [exact H2 |].
  exact (delete_user_twice delete_input_0 1%positive (msg "delete_user") w_three
           2%positive H1 H2).
Defined.

Lemma cfauth_logoff_never_succeeds_witness :
  waitlist w_three = ∅ /\
  (let w' := exec md5_0 encrypt_0 (Config.getattr cfg0) get_users_input_0 delete_input_0
                  public_user_0 (fun _ w => ([], Ok tt, w)) w_three fail_then_succeed in
   waitlist w' = ∅ /\
   (_logoff 1%positive (msg "logoff") w').1.1 <> [SendJson (success_reply "logoff")]).
Proof.
  assert (H1 : waitlist w_three = ∅) by reflexivity.
  split; [exact H1 |].
  exact (cfauth_logoff_never_succeeds md5_0 encrypt_0 get_users_input_0 delete_input_0
           public_user_0 (fun _ w => ([], Ok tt, w)) cfg0 w_three fail_then_succeed
           1%positive (msg "logoff") H1).
Defined.

End AdminMore.

(** ** Users, passwords, tokens and codes in the store *)

Module DbMore.

Import Db Secure Accounts Samples Samples2.

Lemma filter_complement_nil {A} (P : A -> Prop) `{!forall x, Decision (P x)} (l : list A) :
  filter P (filter (fun x => ¬ P x) l) = [].
Proof.
  induction l as [|a l IH]; [reflexivity |].
  destruct (decide (P a)) as [Hp|Hp].
  - rewrite (filter_cons_False (fun x => ¬ P x)) by tauto. exact IH.
  - rewrite (filter_cons_True (fun x => ¬ P x)) by exact Hp.
    rewrite filter_cons_False by exact Hp. exact IH.
Qed.

Lemma filter_nil_within {A} (P Q : A -> Prop) `{!forall x, Decision (P x)}
    `{!forall x, Decision (Q x)} (l : list A) :
  filter P l = [] -> filter P (filter Q l) = [].
Proof.
  induction l as [|a l IH]; [reflexivity |].
  destruct (decide (P a)) as [Hp|Hp].
  - rewrite (filter_cons_True P) by exact Hp. discriminate.
  - rewrite (filter_cons_False P) by exact Hp. intros Hl.
    destruct (decide (Q a)) as [Hq|Hq].
    + rewrite (filter_cons_True Q) by exact Hq.
      rewrite (filter_cons_False P) by exact Hp. apply IH, Hl.
    + rewrite (filter_cons_False Q) by exact Hq. apply IH, Hl.
Qed.


Lemma email_get_spec (d : database) (email : string) :
  match email_get d email with
  | Ok row => email_exists d email = true /\ user_email row = email /\ row ∈ users d
  | Raise e => e = UserDoesNotExist /\ email_exists d email = false /\
               forall r, r ∈ users d -> user_email r <> email
  end.
Proof.
  unfold email_get, email_exists.
  destruct (filter (fun r => user_email r = email) (users d)) as [|row rows] eqn:E.
  - repeat split. intros r Hr Heq.
    assert (Hin : r ∈ filter (fun r => user_email r = email) (users d))
      by (apply list_elem_of_filter; split; assumption).
    rewrite E in Hin. by apply elem_of_nil in Hin.
  - assert (Hin : row ∈ filter (fun r => user_email r = email) (users d))
      by (rewrite E; constructor).
    apply list_elem_of_filter in Hin as [Heq Hin]. repeat split; assumption.
Qed.

(** X15.  [email_get] returns a stored row carrying the requested email
    exactly when [email_exists] answers [True]; otherwise it raises
    [UserDoesNotExist] and no stored user has that email. *)
Theorem email_get_agrees_with_email_exists (d : database) (email : string) :
  match email_get d email with
  | Ok row => email_exists d email = true /\ user_email row = email /\ row ∈ users d
  | Raise e => e = UserDoesNotExist /\ email_exists d email = false /\
               forall r, r ∈ users d -> user_email r <> email
  end.
Proof. exact (email_get_spec d email). Qed.

(** *** Listing users *)

Lemma insert_desc_perm (r : user_row) (l : list user_row) : insert_desc r l ≡ₚ r :: l.
Proof.
  induction l as [|x l IH]; [reflexivity |].
  cbn [insert_desc]. destruct (bool_decide (user_created_at x < user_created_at r)).
  - reflexivity.
  - rewrite IH. apply Permutation_swap.
Qed.

Lemma order_by_created_desc_perm (l : list user_row) : order_by_created_desc l ≡ₚ l.
Proof.
  induction l as [|x l IH]; [reflexivity |].
  cbn [order_by_created_desc foldr]. fold (order_by_created_desc l).
  rewrite insert_desc_perm. by rewrite IH.
Qed.

Lemma insert_desc_sorted (r : user_row) (l : list user_row) :
  Sorted.StronglySorted newer_first l -> Sorted.StronglySorted newer_first (insert_desc r l).
Proof.
  induction 1 as [|x l Hs IH Hall]; cbn [insert_desc].
  - repeat constructor.
  - destruct (bool_decide (user_created_at x < user_created_at r)) eqn:E.
    + apply bool_decide_eq_true_1 in E. constructor; [by constructor |].
      constructor; [unfold newer_first; lia |].
      eapply List.Forall_impl; [| exact Hall]. unfold newer_first. intros y. lia.
    + apply bool_decide_eq_false_1 in E. constructor; [exact IH |].
      apply List.Forall_forall. intros y Hy.
      rewrite <- list_elem_of_In in Hy. rewrite insert_desc_perm in Hy.
      apply elem_of_cons in Hy as [->|Hy].
      * unfold newer_first. lia.
      * rewrite List.Forall_forall in Hall. apply Hall. by rewrite <- list_elem_of_In.
Qed.

Lemma order_by_created_desc_sorted (l : list user_row) :
  Sorted.StronglySorted newer_first (order_by_created_desc l).
Proof.
  induction l as [|x l IH]; [constructor |].
  cbn [order_by_created_desc foldr]. apply insert_desc_sorted. exact IH.
Qed.

(** X16.  Page 0 with a page size that is at least the number of stored
    users and fits the 64-bit integer [LIMIT] takes lists every user
    exactly once, the most recently created first. *)
Theorem get_first_page_lists_everyone (d : database) (page_size : Z) :
  Z.of_nat (length (users d)) <= page_size ->
  page_size <= 9223372036854775807 ->
  get d 0 page_size ≡ₚ users d /\
  Sorted.StronglySorted newer_first (get d 0 page_size).
Proof.
  intros Hsz _. unfold get.
  replace (Z.to_nat (0 * page_size)) with 0%nat by lia. rewrite drop_0.
  rewrite take_ge.
  - split; [apply order_by_created_desc_perm | apply order_by_created_desc_sorted].
  - rewrite (Permutation_length (order_by_created_desc_perm (users d))). lia.
Qed.

(** X17.  When no two stored users share a [created_at], so that the
    order asked for is the same in every query, and page, page size and
    offsets are non-negative and fit 64-bit integers: consecutive pages
    tile the ordered list of users, page [page + 1] starting where page
    [page] ends; no user is listed twice on the two pages; and a page
    never holds more than [page_size] users. *)
Theorem get_consecutive_pages (d : database) (page page_size : Z) :
  NoDup (user_created_at <$> users d) ->
  0 <= page ->
  0 <= page_size ->
  (page + 1) * page_size <= 9223372036854775807 ->
  (get d page page_size ++ get d (page + 1) page_size)%list
    = take (Z.to_nat (2 * page_size))
           (drop (Z.to_nat (page * page_size)) (order_by_created_desc (users d))) /\
  NoDup (get d page page_size ++ get d (page + 1) page_size)%list /\
  (Z.of_nat (length (get d page page_size)) <= page_size).
Proof.
  intros Hnd Hp Hs _.
  assert (Heq : (get d page page_size ++ get d (page + 1) page_size)%list
    = take (Z.to_nat (2 * page_size))
           (drop (Z.to_nat (page * page_size)) (order_by_created_desc (users d)))).
  { unfold get.
    replace (Z.to_nat ((page + 1) * page_size))
      with (Z.to_nat (page * page_size) + Z.to_nat page_size)%nat by nia.
    rewrite <- drop_drop, take_take_drop. f_equal. lia. }
  split; [exact Heq |]. split.
  - rewrite Heq.
    assert (Hord : NoDup (order_by_created_desc (users d))).
    { rewrite order_by_created_desc_perm. exact (NoDup_fmap_1 _ _ Hnd). }
    eapply sublist_NoDup; [| apply sublist_take].
    eapply sublist_NoDup; [exact Hord | apply sublist_drop].
  - unfold get. rewrite length_take. lia.
Qed.

(** *** Deleting users *)

(** X18.  [delete] on a stored id removes every row with that id and no
    other row; on an id that is not stored it raises [UserDoesNotExist]
    and leaves the store as it was. *)
Theorem delete_removes_exactly_that_user (d : database) (id : UUID) :
  match delete d id with
  | (Ok _, d') =>
      id_exists d id = true /\ id_exists d' id = false /\
      (forall r, r ∈ users d' <-> r ∈ users d /\ user_id r <> id) /\
      passwords d' = passwords d /\ tokens d' = tokens d /\
      verification_codes d' = verification_codes d
  | (Raise e, d') => e = UserDoesNotExist /\ id_exists d id = false /\ d' = d
  end.
Proof.
  unfold delete. destruct (id_exists d id) eqn:E; cbn [negb].
  - repeat split; try reflexivity.
    + unfold id_exists. cbn [users].
      rewrite AdminMore.users_gone_after_delete. reflexivity.
    + cbn [users] in *. apply list_elem_of_filter in H. tauto.
    + cbn [users] in *. apply list_elem_of_filter in H. tauto.
    + intros [H1 H2]. cbn [users]. apply list_elem_of_filter. tauto.
  - repeat split; reflexivity.
Qed.

(** *** Passwords *)

Section Passwords.

Variable crypt_context_hash : string -> string -> string.

(** X19.  After [set_password] the user has exactly one password row,
    holding the hash of the new password, whatever rows the user had
    before; the rows of every other user are untouched. *)
Theorem set_password_single_row (salt : string) (now : Z) (d : database) (uid : UUID)
    (password : string) :
  let d' := set_password crypt_context_hash salt now d uid password in
  filter (fun r => pw_user_id r = uid) (passwords d')
    = [ {| pw_user_id := uid; pw_hash := crypt_context_hash salt password;
           pw_last_updated := now |} ] /\
  (forall uid', uid' <> uid ->
     filter (fun r => pw_user_id r = uid') (passwords d')
       = filter (fun r => pw_user_id r = uid') (passwords d)) /\
  users d' = users d /\ tokens d' = tokens d /\
  verification_codes d' = verification_codes d.
Proof.
  cbv zeta. unfold set_password, hash_password. cbn [passwords users tokens verification_codes].
  repeat split.
  - rewrite filter_app.
    assert (Hnil : filter (fun r => pw_user_id r = uid)
                     (filter (fun r => pw_user_id r ≠ uid) (passwords d)) = []).
    { induction (passwords d) as [|r l IH]; [reflexivity |].
      destruct (decide (pw_user_id r = uid)) as [Heq|Hne].
      - rewrite (filter_cons_False (fun r => pw_user_id r ≠ uid)) by tauto. exact IH.
      - rewrite (filter_cons_True (fun r => pw_user_id r ≠ uid)) by exact Hne.
        rewrite filter_cons_False by exact Hne. exact IH. }
    rewrite Hnil. rewrite filter_cons_True by reflexivity. reflexivity.
  - intros uid' Hne. rewrite filter_app.
    rewrite (filter_cons_False _ _ []) by (cbn; congruence).
    rewrite filter_nil, app_nil_r.
    rewrite list_filter_filter. apply list_filter_iff. intros r. split.
    + tauto.
    + intros H. split; [exact H | congruence].
Qed.

(** X20.  [get_password] never hands out a stored password: for a user
    without a password row it returns [None], and for a user with one it
    raises [KeyError], the row being read under a column name the query
    did not select.  This holds right after [set_password] too. *)
Theorem get_password_never_returns_hash (salt : string) (now : Z) (d : database)
    (uid : UUID) (password : string) :
  (forall p, get_password d uid <> Ok (Some p)) /\
  (get_password d uid = Ok None <-> filter (fun r => pw_user_id r = uid) (passwords d) = []) /\
  get_password (set_password crypt_context_hash salt now d uid password) uid
    = Raise KeyError.
Proof.
  split; [| split].
  - intros p. unfold get_password.
    destruct (filter _ (passwords d)); [discriminate |].
    match goal with |- ?x <> _ => assert (Hx : x = Raise KeyError) by reflexivity end.
    rewrite Hx. discriminate.
  - unfold get_password. destruct (filter _ (passwords d)) as [|r l]; [tauto |].
    split; [| discriminate].
    match goal with |- ?x = _ -> _ => assert (Hx : x = Raise KeyError) by reflexivity end.
    rewrite Hx. discriminate.
  - unfold get_password, set_password, hash_password. cbn [passwords].
    rewrite filter_app, filter_complement_nil.
    rewrite filter_cons_True by reflexivity. reflexivity.
Qed.

End Passwords.

(** *** Tokens *)

Lemma tokens_filter_new (d : database) (id uid : UUID) (ty now : Z) :
  exists_token d id = false ->
  filter (fun r => tok_id r = id) (tokens (new_token d uid ty id now).2)
    = [(new_token d uid ty id now).1].
Proof.
  unfold exists_token, new_token. cbn [fst snd tokens]. intros He.
  rewrite filter_app.
  destruct (filter (fun r => tok_id r = id) (tokens d)); [| discriminate].
  rewrite filter_cons_True by reflexivity. reflexivity.
Qed.

(** X21.  A token issued under an id that is not yet in use can be
    fetched back under that id, is listed among the tokens of its user,
    and does not disturb the lookup of any other token id. *)
Theorem new_token_round_trip (d : database) (id uid : UUID) (ty now : Z) :
  exists_token d id = false ->
  let '(tok, d') := new_token d uid ty id now in
  exists_token d' id = true /\
  get_token d' id = Ok (Some tok) /\
  tok ∈ get_tokens d' uid /\
  tok_user_id tok = uid /\ tok_type tok = ty /\
  (forall id', id' <> id -> get_token d' id' = get_token d id').
Proof.
  intros He.
  pose proof (tokens_filter_new d id uid ty now He) as Hf.
  destruct (new_token d uid ty id now) as [tok d'] eqn:En.
  cbn [fst snd] in Hf.
  assert (Hex : exists_token d' id = true) by (unfold exists_token; rewrite Hf; reflexivity).
  split; [exact Hex |]. split.
  { unfold get_token. rewrite Hex, Hf. reflexivity. }
  unfold new_token in En. injection En as <- <-.
  repeat split.
  - unfold get_tokens. cbn [tokens]. apply list_elem_of_filter. split; [reflexivity |].
    apply elem_of_app. right. constructor.
  - intros id' Hne. unfold get_token, exists_token. cbn [tokens].
    rewrite filter_app. rewrite (filter_cons_False _ _ []) by (cbn; congruence).
    rewrite filter_nil, app_nil_r. reflexivity.
Qed.

(** [get_token] raises [DoesNotExist] exactly for the ids that no
    stored token has; for every other id it returns a stored token with
    that id. *)
Theorem get_token_outcomes (d : database) (id : UUID) :
  match get_token d id with
  | Ok (Some tok) => tok ∈ tokens d /\ tok_id tok = id
  | Ok None => False
  | Raise e => e = DoesNotExist /\ forall tok, tok ∈ tokens d -> tok_id tok <> id
  end.
Proof.
  unfold get_token, exists_token.
  destruct (filter (fun r => tok_id r = id) (tokens d)) as [|tok l] eqn:E; cbn [negb head].
  - split; [reflexivity |]. intros tok Hin Heq.
    assert (H : tok ∈ filter (fun r => tok_id r = id) (tokens d))
      by (apply list_elem_of_filter; split; assumption).
    rewrite E in H. by apply elem_of_nil in H.
  - assert (H : tok ∈ filter (fun r => tok_id r = id) (tokens d)) by (rewrite E; constructor).
    apply list_elem_of_filter in H. tauto.
Qed.

(** *** Verification codes *)

Lemma make_verification_code_inversion (fuel : nat) (draw : nat -> string)
    (days hours : Z) (d d' : database) (uid fresh_id : UUID) (now : Z) (row : code_row) :
  make_verification_code fuel draw days hours d uid fresh_id now = Some (row, d') ->
  (forall uid', uid' <> uid -> codes_of_user d' uid' = codes_of_user d uid') /\
  vc_user_id row = uid /\
  codes_of_user d' uid = [row] /\
  (resolve_code d (vc_code row) = None -> resolve_code d' (vc_code row) = Some row) /\
  users d' = users d /\ passwords d' = passwords d /\ tokens d' = tokens d.
Proof.
  unfold make_verification_code.
  destruct (pick_code fuel draw 0 d uid) as [code|]; [| discriminate].
  intros [= <- <-]. cbn [verification_codes vc_user_id vc_code users passwords tokens].
  repeat split.
  - intros uid' Hne. unfold codes_of_user. cbn [verification_codes].
    rewrite filter_app. rewrite (filter_cons_False _ _ []) by (cbn; congruence).
    rewrite filter_nil, app_nil_r.
    rewrite list_filter_filter. apply list_filter_iff. intros r. split.
    + tauto.
    + intros H. split; [exact H | congruence].
  - unfold codes_of_user. cbn [verification_codes].
    rewrite filter_app, DbProps.codes_of_user_after_delete.
    rewrite filter_cons_True by reflexivity. reflexivity.
  - unfold resolve_code. cbn [verification_codes]. intros Hnone.
    rewrite filter_app.
    assert (Hnil : filter (fun r => vc_code r = code)
                     (filter (fun r => vc_user_id r ≠ uid) (verification_codes d)) = []).
    { apply filter_nil_within.
      destruct (filter (fun r => vc_code r = code) (verification_codes d));
        [reflexivity | discriminate]. }
    rewrite Hnil. rewrite filter_cons_True by reflexivity. reflexivity.
Qed.

(** X22.  When [make_verification_code] returns, the codes of every
    other user are exactly what they were, the user holds the new code
    and no other, and the new code resolves to the new row provided no
    stored row already carried the same code. *)
Theorem make_verification_code_keeps_others (fuel : nat) (draw : nat -> string)
    (days hours : Z) (d d' : database) (uid fresh_id : UUID) (now : Z) (row : code_row) :
  make_verification_code fuel draw days hours d uid fresh_id now = Some (row, d') ->
  (forall uid', uid' <> uid -> codes_of_user d' uid' = codes_of_user d uid') /\
  codes_of_user d' uid = [row] /\
  (resolve_code d (vc_code row) = None -> resolve_code d' (vc_code row) = Some row).
Proof.
  intros H.
  destruct (make_verification_code_inversion fuel draw days hours d d' uid fresh_id now
              row H) as (H1 & _ & H2 & H3 & _).
  repeat split; assumption.
Qed.

(** *** The theorems on a sample store *)

Lemma get_first_page_lists_everyone_witness :
  Z.of_nat (length (users d_three)) <= 5 /\
  5 <= 9223372036854775807 /\
  get d_three 0 5 ≡ₚ users d_three /\
  Sorted.StronglySorted newer_first (get d_three 0 5).
Proof.
  assert (H : Z.of_nat (length (users d_three)) <= 5) by (vm_compute; congruence).
  assert (Hb : 5 <= 9223372036854775807) by lia.
  split; [exact H |]. split; [exact Hb |].
  exact (get_first_page_lists_everyone d_three 5 H Hb).
Defined.

(** With two users per page the three sample users come out as [b; c]
    and then [a]. *)
Example get_pages_of_three :
  get d_three 0 2 = [user_b; user_c] /\ get d_three 1 2 = [user_a] /\ get d_three 2 2 = [].
Proof. repeat split. Qed.

Lemma created_at_distinct_three : NoDup (user_created_at <$> users d_three).
Proof. apply (bool_decide_unpack _). vm_compute. exact I. Qed.

Lemma get_consecutive_pages_witness :
  NoDup (user_created_at <$> users d_three) /\
  0 <= 0 /\ 0 <= 2 /\ (0 + 1) * 2 <= 9223372036854775807 /\
  (get d_three 0 2 ++ get d_three (0 + 1) 2)%list
    = take (Z.to_nat (2 * 2))
           (drop (Z.to_nat (0 * 2)) (order_by_created_desc (users d_three))) /\
  NoDup (get d_three 0 2 ++ get d_three (0 + 1) 2)%list /\
  (Z.of_nat (length (get d_three 0 2)) <= 2).
Proof.
  assert (H1 : 0 <= 0) by lia. assert (H2 : 0 <= 2) by lia.
  assert (H3 : (0 + 1) * 2 <= 9223372036854775807) by lia.
  split; [exact created_at_distinct_three |].
  split; [exact H1 |]. split; [exact H2 |]. split; [exact H3 |].
  exact (get_consecutive_pages d_three 0 2 created_at_distinct_three H1 H2 H3).
Defined.

Lemma new_token_round_trip_witness :
  exists_token d_three 51%positive = false /\
  (let '(tok, d') := new_token d_three 2%positive 0 51%positive 200 in
   exists_token d' 51%positive = true /\
   get_token d' 51%positive = Ok (Some tok) /\
   tok ∈ get_tokens d' 2%positive /\
   tok_user_id tok = 2%positive /\ tok_type tok = 0 /\
   (forall id', id' <> 51%positive -> get_token d' id' = get_token d_three id')).
Proof.
  assert (H : exists_token d_three 51%positive = false) by reflexivity.
  split; [exact H |].
  exact (new_token_round_trip d_three 51%positive 2%positive 0 200 H).
Defined.

Lemma make_code_c :
  make_verification_code 1 (fun _ => "code-c") 1 0 d_three 3%positive 61%positive 200
  = Some (code_c,
          (default (code_c, d_three)
             (make_verification_code 1 (fun _ => "code-c") 1 0 d_three 3%positive
                                     61%positive 200)).2).
Proof. vm_compute. reflexivity. Qed.

Lemma make_verification_code_keeps_others_witness :
  make_verification_code 1 (fun _ => "code-c") 1 0 d_three 3%positive 61%positive 200
  = Some (code_c,
          (default (code_c, d_three)
             (make_verification_code 1 (fun _ => "code-c") 1 0 d_three 3%positive
                                     61%positive 200)).2) /\
  ((forall uid', uid' <> 3%positive ->
      codes_of_user (default (code_c, d_three)
             (make_verification_code 1 (fun _ => "code-c") 1 0 d_three 3%positive
                                     61%positive 200)).2 uid' = codes_of_user d_three uid') /\
   codes_of_user (default (code_c, d_three)
             (make_verification_code 1 (fun _ => "code-c") 1 0 d_three 3%positive
                                     61%positive 200)).2 3%positive = [code_c] /\
   (resolve_code d_three (vc_code code_c) = None ->
    resolve_code (default (code_c, d_three)
             (make_verification_code 1 (fun _ => "code-c") 1 0 d_three 3%positive
                                     61%positive 200)).2 (vc_code code_c) = Some code_c)).
Proof.
  split; [exact make_code_c |].
  exact (make_verification_code_keeps_others 1 (fun _ => "code-c") 1 0 d_three _
           3%positive 61%positive 200 code_c make_code_c).
Defined.


End DbMore.

(** ** Signing up and verifying sessions *)

Module AccountsProps.

Import Db Secure Accounts Samples Samples2.

(** X24.  [first_six_digits] keeps the leading decimal digits of its
    argument and returns a number below one million, as long as the
    argument has at most [6 + fuel] digits. *)
Theorem first_six_digits_bound (fuel : nat) (n : Z) :
  0 <= n < 10 ^ (6 + Z.of_nat fuel) ->
  0 <= first_six_digits fuel n < 1000000 /\
  exists k, 0 <= k <= Z.of_nat fuel /\ first_six_digits fuel n = n / 10 ^ k.
Proof.
  revert n. induction fuel as [|fuel IH]; intros n Hn.
  - cbn [first_six_digits]. replace (6 + Z.of_nat 0) with 6 in Hn by lia.
    change (10 ^ 6) with 1000000 in Hn. split; [lia |].
    exists 0. split; [lia |]. rewrite Z.pow_0_r, Z.div_1_r. reflexivity.
  - cbn [first_six_digits].
    destruct (bool_decide (n < 1000000)) eqn:E.
    + apply bool_decide_eq_true_1 in E. split; [lia |].
      exists 0. split; [lia |]. rewrite Z.pow_0_r, Z.div_1_r. reflexivity.
    + apply bool_decide_eq_false_1 in E.
      assert (Hdiv : 0 <= n / 10 < 10 ^ (6 + Z.of_nat fuel)).
      { split; [apply Z.div_pos; lia |].
        apply Z.div_lt_upper_bound; [lia |].
        replace (6 + Z.of_nat (S fuel)) with (Z.succ (6 + Z.of_nat fuel)) in Hn by lia.
        rewrite Z.pow_succ_r in Hn by lia. lia. }
      destruct (IH (n / 10) Hdiv) as [Hb (k & Hk & Heq)].
      split; [exact Hb |].
      exists (k + 1). split; [lia |].
      rewrite Heq. rewrite Z.div_div by (try lia; apply Z.pow_pos_nonneg; lia).
      f_equal. rewrite Z.pow_add_r by lia. lia.
Qed.

Lemma first_six_digits_bound_witness :
  0 <= 123456789 < 10 ^ (6 + Z.of_nat 49) /\
  (0 <= first_six_digits 49 123456789 < 1000000 /\
   exists k, 0 <= k <= Z.of_nat 49 /\ first_six_digits 49 123456789 = 123456789 / 10 ^ k).
Proof.
  assert (H : 0 <= 123456789 < 10 ^ (6 + Z.of_nat 49)) by (vm_compute; split; congruence).
  split; [exact H |].
  exact (first_six_digits_bound 49 123456789 H).
Defined.

Lemma pick_tag_free (fuel : nat) (candidate : nat -> Z) (i : nat) (d : database)
    (username : string) (tag0 tag : Z) :
  pick_tag fuel candidate i d username tag0 = Some tag ->
  tag_in_use d username tag = false.
Proof.
  revert i tag0. induction fuel as [|fuel IH]; intros i tag0; cbn [pick_tag]; [discriminate |].
  destruct (tag_in_use d username tag0) eqn:E.
  - apply IH.
  - intros [= <-]. exact E.
Qed.

Section New.

Variable crypt_context_hash : string -> string -> string.
Variable sha1_int : string -> Z.
Variable server_name server_host : string.
Variable days hours : Z.

Abbreviation new_ := (new crypt_context_hash sha1_int server_name server_host days hours).

(** What a successful [new] has done, step by step. *)
Lemma new_ok_inversion (fuel : nat) (env : new_env) (s s' : store)
    (email username password : string) (row : user_row) :
  new_ fuel env s email username password = (NewOk row, s') ->
  email_exists (db s) email = false /\
  tag_in_use (db s) username (user_tag row) = false /\
  user_email row = email /\ user_username row = username /\
  user_id row = new_user_id env /\
  users (db s') = (users (db s) ++ [row])%list /\
  passwords (db s') =
    (filter (fun r => pw_user_id r ≠ new_user_id env) (passwords (db s))
     ++ [ {| pw_user_id := new_user_id env;
             pw_hash := crypt_context_hash (salt_inner env)
                          (crypt_context_hash (salt_outer env) password);
             pw_last_updated := new_now env |} ])%list /\
  config s' = (config s ++ [new_user_id env])%list /\
  exists code,
    codes_of_user (db s') (new_user_id env) = [code] /\
    outbox s' = (outbox s ++ [(email, "Verify Your Email",
                               verification_body server_name server_host (vc_code code))])%list.
Proof.
  unfold new. destruct (email_exists (db s) email) eqn:Ee; [discriminate |].
  destruct (pick_tag _ _ _ _ _ _) as [tag|] eqn:Et; [| discriminate].
  apply pick_tag_free in Et.
  destruct (make_verification_code _ _ _ _ _ _ _ _) as [[code d3]|] eqn:Ec; [| discriminate].
  intros [= <- <-].
  destruct (DbMore.make_verification_code_inversion _ _ _ _ _ _ _ _ _ _ Ec)
    as (_ & _ & Hcodes & _ & Hu & Hp & _).
  cbn [user_id user_tag user_email user_username] in *.
  repeat split; try assumption; try reflexivity.
  exists code. split; [exact Hcodes | reflexivity].
Qed.

Lemma email_exists_of_row (d : database) (r : user_row) :
  r ∈ users d -> email_exists d (user_email r) = true.
Proof.
  intros Hin. unfold email_exists.
  destruct (filter (fun r0 => user_email r0 = user_email r) (users d)) as [|x l] eqn:E;
    [| reflexivity].
  assert (H : r ∈ filter (fun r0 => user_email r0 = user_email r) (users d))
    by (apply list_elem_of_filter; split; [reflexivity | exact Hin]).
  rewrite E in H. by apply elem_of_nil in H.
Qed.

(** X25.  The row created by a successful [new] is stored, it stays
    stored through every later successful [new], and on every store that
    holds it a [new] with the same email, whatever the username and the
    password, ends with [UserAlreadyExists], writes nothing and mails
    nothing. *)
Theorem new_twice_same_email (fuel : nat) (env : new_env) (s s' : store)
    (email username password : string) (row : user_row) :
  new_ fuel env s email username password = (NewOk row, s') ->
  row ∈ users (db s') /\
  (forall fuel' env' s'' username' password',
     row ∈ users (db s'') ->
     new_ fuel' env' s'' email username' password' = (NewAlreadyExists, s'')) /\
  (forall fuel' env' s1 s2 email' username' password' row',
     row ∈ users (db s1) ->
     new_ fuel' env' s1 email' username' password' = (NewOk row', s2) ->
     row ∈ users (db s2)).
Proof.
  intros Hnew. destruct (new_ok_inversion _ _ _ _ _ _ _ _ Hnew)
    as (_ & _ & Hemail & _ & _ & Hu & _).
  split; [| split].
  - rewrite Hu. apply elem_of_app. right. constructor.
  - intros fuel' env' s'' username' password' Hin.
    unfold new. rewrite <- Hemail, (email_exists_of_row _ _ Hin). reflexivity.
  - intros fuel' env' s1 s2 email' username' password' row' Hin Hnew'.
    destruct (new_ok_inversion _ _ _ _ _ _ _ _ Hnew') as (_ & _ & _ & _ & _ & Hu' & _).
    rewrite Hu'. apply elem_of_app. left. exact Hin.
Qed.

(** X26.  [new] keeps emails unique: if no two stored users share an
    email before a successful [new], none do afterwards. *)
Theorem new_keeps_emails_unique (fuel : nat) (env : new_env) (s s' : store)
    (email username password : string) (row : user_row) :
  NoDup (user_email <$> users (db s)) ->
  new_ fuel env s email username password = (NewOk row, s') ->
  NoDup (user_email <$> users (db s')).
Proof.
  intros Hnd Hnew. destruct (new_ok_inversion _ _ _ _ _ _ _ _ Hnew)
    as (He & _ & Hemail & _ & _ & Hu & _).
  rewrite Hu, fmap_app. apply NoDup_app. split; [exact Hnd |]. split.
  - intros e He1 He2. cbn in He2. apply list_elem_of_singleton in He2. subst e.
    apply list_elem_of_fmap in He1 as (r & Hr1 & Hr2).
    pose proof (DbMore.email_get_spec (db s) email) as Hget.
    destruct (email_get (db s) email) as [r'|e].
    + destruct Hget as [Hex _]. congruence.
    + destruct Hget as (_ & _ & Hnone). apply (Hnone r Hr2). congruence.
  - cbn. apply NoDup_singleton.
Qed.

(** X27.  [new] keeps the pair of username and tag unique: the tag it
    assigns is one no stored user of that name has. *)
Theorem new_keeps_name_tag_unique (fuel : nat) (env : new_env) (s s' : store)
    (email username password : string) (row : user_row) :
  NoDup ((fun r => (user_username r, user_tag r)) <$> users (db s)) ->
  new_ fuel env s email username password = (NewOk row, s') ->
  NoDup ((fun r => (user_username r, user_tag r)) <$> users (db s')).
Proof.
  intros Hnd Hnew. destruct (new_ok_inversion _ _ _ _ _ _ _ _ Hnew)
    as (_ & Htag & _ & Hname & _ & Hu & _).
  rewrite Hu, fmap_app. apply NoDup_app. split; [exact Hnd |]. split.
  - intros p Hp1 Hp2. cbn in Hp2. apply list_elem_of_singleton in Hp2. subst p.
    apply list_elem_of_fmap in Hp1 as (r & Hr1 & Hr2). injection Hr1 as H1 H2.
    unfold tag_in_use in Htag.
    destruct (filter (fun r0 => user_username r0 = username /\ user_tag r0 = user_tag row)
                     (users (db s))) as [|x l] eqn:E; [| discriminate].
    assert (Hin : r ∈ filter (fun r0 => user_username r0 = username /\
                                        user_tag r0 = user_tag row) (users (db s))).
    { apply list_elem_of_filter. split; [| exact Hr2]. split; congruence. }
    rewrite E in Hin. by apply elem_of_nil in Hin.
  - cbn. apply NoDup_singleton.
Qed.

(** X28.  The password row written by a successful [new] holds the hash
    of the hash of the password: [new] hashes the password and hands the
    result to [set_password], which hashes what it is given.  It is the
    only password row of the new user. *)
Theorem new_stores_hash_of_hash (fuel : nat) (env : new_env) (s s' : store)
    (email username password : string) (row : user_row) :
  new_ fuel env s email username password = (NewOk row, s') ->
  filter (fun r => pw_user_id r = user_id row) (passwords (db s'))
    = [ {| pw_user_id := user_id row;
           pw_hash := crypt_context_hash (salt_inner env)
                        (crypt_context_hash (salt_outer env) password);
           pw_last_updated := new_now env |} ].
Proof.
  intros Hnew. destruct (new_ok_inversion _ _ _ _ _ _ _ _ Hnew)
    as (_ & _ & _ & _ & Hid & _ & Hp & _).
  rewrite Hp, Hid, filter_app, DbMore.filter_complement_nil.
  rewrite filter_cons_True by reflexivity. reflexivity.
Qed.


End New.

Section Sessions.

Variable token_get_user_id : database -> option token_row -> res UUID.
Variable users_id_get : database -> UUID -> res user_row.

(** X30.  With a token id that no stored token has, [session_verify]
    returns no user, whatever the email; with a stored token and an
    email that no user has, it does not return: [UserDoesNotExist]
    raised by [email_get] leaves it. *)
Theorem session_verify_unknown_token_or_email (d : database) (email : string)
    (token_id : UUID) :
  (exists_token d token_id = false ->
   session_verify token_get_user_id users_id_get d email token_id = Ok None) /\
  (exists_token d token_id = true -> email_exists d email = false ->
   session_verify token_get_user_id users_id_get d email token_id
     = Raise UserDoesNotExist).
Proof.
  split.
  - intros He. unfold session_verify, get_token. rewrite He. reflexivity.
  - intros He Hm. unfold session_verify, get_token. rewrite He. cbn [negb].
    unfold email_get. unfold email_exists in Hm.
    destruct (filter _ (users d)); [reflexivity | discriminate].
Qed.

End Sessions.

(** *** The theorems on a sample store *)

Lemma signup_d_ok : signup_d = (NewOk row_d, signup_d.2).
Proof. vm_compute. reflexivity. Qed.

Lemma new_twice_same_email_witness :
  new hash_0 sha1_int_0 "echo" "echo.example" 1 0 2 new_env_0 store_three
      "d@example.org" "d" "pw" = (NewOk row_d, signup_d.2) /\
  (row_d ∈ users (db signup_d.2) /\
   (forall fuel' env' s'' username' password',
      row_d ∈ users (db s'') ->
      new hash_0 sha1_int_0 "echo" "echo.example" 1 0 fuel' env' s''
          "d@example.org" username' password' = (NewAlreadyExists, s'')) /\
   (forall fuel' env' s1 s2 email' username' password' row',
      row_d ∈ users (db s1) ->
      new hash_0 sha1_int_0 "echo" "echo.example" 1 0 fuel' env' s1
          email' username' password' = (NewOk row', s2) ->
      row_d ∈ users (db s2))).
Proof.
  split; [exact signup_d_ok |].
  exact (new_twice_same_email hash_0 sha1_int_0 "echo" "echo.example" 1 0 2
           new_env_0 store_three signup_d.2 "d@example.org" "d" "pw" row_d signup_d_ok).
Defined.

Lemma emails_unique_three : NoDup (user_email <$> users (db store_three)).
Proof.
  apply (bool_decide_unpack _). vm_compute. exact I.
Qed.

Lemma new_keeps_emails_unique_witness :
  NoDup (user_email <$> users (db store_three)) /\
  new hash_0 sha1_int_0 "echo" "echo.example" 1 0 2 new_env_0 store_three
      "d@example.org" "d" "pw" = (NewOk row_d, signup_d.2) /\
  NoDup (user_email <$> users (db signup_d.2)).
Proof.
  split; [exact emails_unique_three |]. split; [exact signup_d_ok |].
  exact (new_keeps_emails_unique hash_0 sha1_int_0 "echo" "echo.example" 1 0 2
           new_env_0 store_three signup_d.2 "d@example.org" "d" "pw" row_d
           emails_unique_three signup_d_ok).
Defined.

Lemma name_tags_unique_three :
  NoDup ((fun r => (user_username r, user_tag r)) <$> users (db store_three)).
Proof.
  apply (bool_decide_unpack _). vm_compute. exact I.
Qed.

Lemma new_keeps_name_tag_unique_witness :
  NoDup ((fun r => (user_username r, user_tag r)) <$> users (db store_three)) /\
  new hash_0 sha1_int_0 "echo" "echo.example" 1 0 2 new_env_0 store_three
      "d@example.org" "d" "pw" = (NewOk row_d, signup_d.2) /\
  NoDup ((fun r => (user_username r, user_tag r)) <$> users (db signup_d.2)).
Proof.
  split; [exact name_tags_unique_three |]. split; [exact signup_d_ok |].
  exact (new_keeps_name_tag_unique hash_0 sha1_int_0 "echo" "echo.example" 1 0 2
           new_env_0 store_three signup_d.2 "d@example.org" "d" "pw" row_d
           name_tags_unique_three signup_d_ok).
Defined.

Lemma new_stores_hash_of_hash_witness :
  new hash_0 sha1_int_0 "echo" "echo.example" 1 0 2 new_env_0 store_three
      "d@example.org" "d" "pw" = (NewOk row_d, signup_d.2) /\
  filter (fun r => pw_user_id r = user_id row_d) (passwords (db signup_d.2))
    = [ {| pw_user_id := user_id row_d;
           pw_hash := hash_0 (salt_inner new_env_0) (hash_0 (salt_outer new_env_0) "pw");
           pw_last_updated := new_now new_env_0 |} ].
Proof.
  split; [exact signup_d_ok |].
  exact (new_stores_hash_of_hash hash_0 sha1_int_0 "echo" "echo.example" 1 0 2
           new_env_0 store_three signup_d.2 "d@example.org" "d" "pw" row_d signup_d_ok).
Defined.


Lemma session_verify_unknown_token_or_email_witness :
  (exists_token d_three 99%positive = false /\
   session_verify (fun _ _ => Ok 1%positive) (fun _ _ => Ok user_a) d_three
                  "a@example.org" 99%positive = Ok None) /\
  (exists_token d_three 50%positive = true /\
   email_exists d_three "nobody@example.org" = false /\
   session_verify (fun _ _ => Ok 1%positive) (fun _ _ => Ok user_a) d_three
                  "nobody@example.org" 50%positive = Raise UserDoesNotExist).
Proof.
  assert (H1 : exists_token d_three 99%positive = false) by reflexivity.
  assert (H2 : exists_token d_three 50%positive = true) by reflexivity.
  assert (H3 : email_exists d_three "nobody@example.org" = false) by reflexivity.
  split.
  - split; [exact H1 |].
    exact (proj1 (session_verify_unknown_token_or_email (fun _ _ => Ok 1%positive)
                    (fun _ _ => Ok user_a) d_three "a@example.org" 99%positive) H1).
  - split; [exact H2 |]. split; [exact H3 |].
    exact (proj2 (session_verify_unknown_token_or_email (fun _ _ => Ok 1%positive)
                    (fun _ _ => Ok user_a) d_three "nobody@example.org" 50%positive)
                 H2 H3).
Defined.

End AccountsProps.

(** ** Test support *)

Module TestSupportProps.

Import TestSupport Samples2.

Lemma length_append (a b : string) :
  String.length (a ++ b) = (String.length a + String.length b)%nat.
Proof.
  induction a as [|c a IH]; [reflexivity |].
  change (S (String.length (a ++ b)) = S (String.length a + String.length b)).
  f_equal. exact IH.
Qed.

Lemma append_assoc (a b c : string) : (a ++ b) ++ c = a ++ (b ++ c).
Proof.
  induction a as [|x a IH]; [reflexivity |].
  change (String x ((a ++ b) ++ c) = String x (a ++ (b ++ c))). f_equal. exact IH.
Qed.

Lemma length_repeat_char (c : ascii) (n : Z) :
  String.length (repeat_char c n) = Z.to_nat n.
Proof.
  unfold repeat_char. induction (Z.to_nat n) as [|k IH]; [reflexivity | cbn; f_equal; exact IH].
Qed.

(** With non-negative counts and a known padding type,
    [generate_password] raises exactly when the counts add up to more
    than the requested length, and otherwise returns a password of
    exactly that length which starts with the requested runs of the four
    character classes. *)
Theorem generate_password_length (n1 n2 n3 n4 len : Z) (t : string) (ch : choices) :
  0 <= n1 -> 0 <= n2 -> 0 <= n3 -> 0 <= n4 ->
  valid_padding_type t = true ->
  match generate_password n1 n2 n3 n4 len t ch with
  | Some s =>
      n1 + n2 + n3 + n4 <= len /\ Z.of_nat (String.length s) = len /\
      exists pad, s = repeat_char (c_lower ch) n1 ++ repeat_char (c_upper ch) n2
                      ++ repeat_char (c_number ch) n3 ++ repeat_char (c_special ch) n4
                      ++ pad
  | None => len < n1 + n2 + n3 + n4
  end.
Proof.
  intros H1 H2 H3 H4 Ht. unfold generate_password.
  destruct (bool_decide (len < n1 + n2 + n3 + n4)) eqn:E.
  - by apply bool_decide_eq_true_1 in E.
  - apply bool_decide_eq_false_1 in E. rewrite Ht. cbn [negb].
    split; [lia |]. split.
    + rewrite !length_append, !length_repeat_char. lia.
    + eexists. rewrite !append_assoc. reflexivity.
Qed.

Lemma generate_password_length_witness :
  0 <= 2 /\ 0 <= 1 /\ 0 <= 1 /\ 0 <= 1 /\
  valid_padding_type "random" = true /\
  match generate_password 2 1 1 1 8 "random" choices_0 with
  | Some s =>
      2 + 1 + 1 + 1 <= 8 /\ Z.of_nat (String.length s) = 8 /\
      exists pad, s = repeat_char (c_lower choices_0) 2 ++ repeat_char (c_upper choices_0) 1
                      ++ repeat_char (c_number choices_0) 1
                      ++ repeat_char (c_special choices_0) 1 ++ pad
  | None => 8 < 2 + 1 + 1 + 1
  end.
Proof.
  assert (H1 : 0 <= 2) by lia. assert (H2 : 0 <= 1) by lia.
  assert (Ht : valid_padding_type "random" = true) by reflexivity.
  split; [exact H1 |]. split; [exact H2 |]. split; [exact H2 |]. split; [exact H2 |].
  split; [exact Ht |].
  exact (generate_password_length 2 1 1 1 8 "random" choices_0 H1 H2 H2 H2 Ht).
Defined.

(** With a negative count the check of the sum can pass although the
    other runs alone exceed the requested length; the result is then
    longer than asked for. *)
Example generate_password_negative_count :
  generate_password (-5) 4 3 3 6 "lower" choices_0 = Some "BBBB333!!!".
Proof. reflexivity. Qed.

End TestSupportProps.
